(** * Covid-19-Dashboard: the data pipeline and the visualisation callback

    A shallow embedding of [dashboard.py]:
    - lines 14-48, the module-level pipeline that melts the two wide
      case tables, parses their dates, projects the vaccination table,
      builds the three per-country summaries and left-merges them into
      [country_data];
    - lines 122-160, the body of [update_visualizations].

    A pandas frame is a list of row records, in row order.  A numeric cell
    is [option Z], [None] being NaN; counts are integers in the sources and
    the code never does arithmetic on them other than [max].  A pandas
    timestamp is its integer value.  The parser behind [pd.to_datetime] is
    a parameter of the development.  A Python exception is a value of
    [exn] carried by [result].

    Line 51 evaluates [dash.Dash(name)] with [name] unbound, so the Dash
    application object itself is outside this embedding; the pipeline runs
    before that line and the callback is modelled as the function it is. *)

From Stdlib Require Import List String Ascii ZArith Bool Arith Lia.
From Stdlib Require Import Sorted OrdersEx RelationClasses Permutation.
Import ListNotations.

Open Scope Z_scope.
Open Scope string_scope.
Open Scope list_scope.

(** ** Cells, timestamps, exceptions *)

Definition cell := option Z.
Definition Timestamp := Z.

Inductive exn :=
| KeyError (key : string)
| ValueError (msg : string)
| ParserError (text : string).

Inductive result (A : Type) :=
| Ok (a : A)
| Raise (e : exn).
Arguments Ok {A} a.
Arguments Raise {A} e.

Definition bind {A B} (r : result A) (k : A -> result B) : result B :=
  match r with
  | Ok a => k a
  | Raise e => Raise e
  end.

Notation "x <- r ;; k" := (bind r (fun x => k))
  (at level 61, r at next level, right associativity).

(** ** The wide sources (lines 14-15) *)

(** The four [id_vars] of a row.  [Lat] and [Long] are carried through
    and never read; they are kept as the text of the field. *)
Record identity := {
  Province_State : option string;
  Country_Region : string;
  Lat : string;
  Long : string
}.

Definition option_string_eqb (a b : option string) : bool :=
  match a, b with
  | None, None => true
  | Some x, Some y => String.eqb x y
  | _, _ => false
  end.

Definition identity_eqb (a b : identity) : bool :=
  option_string_eqb (Province_State a) (Province_State b)
  && String.eqb (Country_Region a) (Country_Region b)
  && String.eqb (Lat a) (Lat b)
  && String.eqb (Long a) (Long b).

Record wide_row := {
  ident : identity;
  cells : list cell
}.

(** [date_labels] are the headers of the columns after the four identity
    columns; the cell of a row in column [j] is [nth j (cells r) None]. *)
Record wide_table := {
  date_labels : list string;
  wide_rows : list wide_row
}.

(** ** melt (lines 19-22, 25-28) *)

Record melted_row := {
  m_ident : identity;
  m_label : string;
  m_value : cell
}.

Definition enumerate {A} (l : list A) : list (nat * A) :=
  combine (seq 0 (List.length l)) l.

Definition melt_column (rows : list wide_row) (jl : nat * string) : list melted_row :=
  map (fun r => {| m_ident := ident r;
                   m_label := snd jl;
                   m_value := nth (fst jl) (cells r) None |}) rows.

(** pandas stacks the value columns one after the other: all rows of the
    first date column, then all rows of the second, and so on. *)
Definition melt (t : wide_table) : list melted_row :=
  flat_map (melt_column (wide_rows t)) (enumerate (date_labels t)).

(** ** The long case tables (lines 23, 29) *)

Record case_row := {
  c_province : option string;
  c_country : string;
  c_lat : string;
  c_long : string;
  c_date : Timestamp;
  c_value : cell
}.

Record vacc_raw := {
  location : string;
  date : string;
  raw_total_vaccinations : cell
}.

Record vacc_row := {
  v_country : string;
  v_date : option Timestamp;
  v_total : cell
}.

Record country_row := {
  Country : string;
  Confirmed_Cases : cell;
  Deaths : cell;
  total_vaccinations : cell
}.

(** ** groupby(...).max().reset_index() (lines 37, 40, 43) *)

(** Group keys come out sorted and without repetition. *)
Fixpoint insert_key (k : string) (ks : list string) : list string :=
  match ks with
  | [] => [k]
  | h :: t =>
      match String.compare k h with
      | Eq => h :: t
      | Lt => k :: h :: t
      | Gt => h :: insert_key k t
      end
  end.

Definition group_keys (ks : list string) : list string :=
  fold_right insert_key [] ks.

Definition max_cell (v acc : cell) : cell :=
  match v, acc with
  | Some a, Some b => Some (Z.max a b)
  | Some a, None => Some a
  | None, _ => acc
  end.

(** [max] of a group skips NaN and is NaN when the group holds nothing
    else. *)
Definition max_skipna (vs : list cell) : cell :=
  fold_right max_cell None vs.

Definition group_values {R} (key : R -> string) (val : R -> cell)
    (rows : list R) (k : string) : list cell :=
  map val (filter (fun r => String.eqb (key r) k) rows).

Definition groupby_max {R} (key : R -> string) (val : R -> cell)
    (rows : list R) : list (string * cell) :=
  map (fun k => (k, max_skipna (group_values key val rows k)))
      (group_keys (map key rows)).

(** ** merge(..., on="Country", how="left") (lines 46-47) *)

(** Every left row, in order, once per matching right row; a left row
    without a match is kept once with NaN on the right. *)
Definition merge_left {L O} (lkey : L -> string) (combine_row : L -> cell -> O)
    (left : list L) (right : list (string * cell)) : list O :=
  flat_map (fun l =>
    match filter (fun kb => String.eqb (fst kb) (lkey l)) right with
    | [] => [combine_row l None]
    | ms => map (fun kb => combine_row l (snd kb)) ms
    end) left.

(** Line 48: [fillna(0, inplace=True)] on the one column
    [total_vaccinations], taken with the in-place effect the code relies
    on. *)
Definition fillna0 (c : cell) : cell :=
  match c with
  | Some v => Some v
  | None => Some 0
  end.

(** ** The store built at module level *)

Record store := {
  confirmed_data : list case_row;
  deaths_data : list case_row;
  vaccination_data : list vacc_row;
  country_data : list country_row
}.

Definition confirmed_summary (confirmed : list case_row) : list (string * cell) :=
  groupby_max c_country c_value confirmed.

Definition deaths_summary (deaths : list case_row) : list (string * cell) :=
  groupby_max c_country c_value deaths.

Definition vaccination_summary (vacc : list vacc_row) : list (string * cell) :=
  groupby_max v_country v_total vacc.

Definition merge_country_data (confirmed deaths : list case_row)
    (vacc : list vacc_row) : list country_row :=
  let with_deaths :=
    merge_left fst (fun l d => (fst l, snd l, d))
      (confirmed_summary confirmed) (deaths_summary deaths) in
  let with_vacc :=
    merge_left (fun l => fst (fst l))
      (fun l v => {| Country := fst (fst l);
                     Confirmed_Cases := snd (fst l);
                     Deaths := snd l;
                     total_vaccinations := v |})
      with_deaths (vaccination_summary vacc) in
  map (fun r => {| Country := Country r;
                   Confirmed_Cases := Confirmed_Cases r;
                   Deaths := Deaths r;
                   total_vaccinations := fillna0 (total_vaccinations r) |})
      with_vacc.

Section Pipeline.

(** The parser of [pd.to_datetime] on one string, as the call at hand
    parses the values of its column (pandas settles on the format of a
    column from its first value): [None] when the string does not parse. *)
Variable to_datetime : string -> option Timestamp.

(** Line 23 and 29: the default [errors="raise"]. *)
Fixpoint parse_dates (rows : list melted_row) : result (list case_row) :=
  match rows with
  | [] => Ok []
  | r :: rest =>
      match to_datetime (m_label r) with
      | None => Raise (ParserError (m_label r))
      | Some d =>
          rest' <- parse_dates rest ;;
          Ok ({| c_province := Province_State (m_ident r);
                 c_country := Country_Region (m_ident r);
                 c_lat := Lat (m_ident r);
                 c_long := Long (m_ident r);
                 c_date := d;
                 c_value := m_value r |} :: rest')
      end
  end.

Definition load_cases (t : wide_table) : result (list case_row) :=
  parse_dates (melt t).

(** Lines 32-34: [errors="coerce"], then the projection and the rename. *)
Definition load_vaccinations (raw : list vacc_raw) : list vacc_row :=
  map (fun r => {| v_country := location r;
                   v_date := to_datetime (date r);
                   v_total := raw_total_vaccinations r |}) raw.

(** Lines 14-48. *)
Definition build (confirmed_csv deaths_csv : wide_table)
    (vaccinations_csv : list vacc_raw) : result store :=
  confirmed <- load_cases confirmed_csv ;;
  deaths <- load_cases deaths_csv ;;
  let vacc := load_vaccinations vaccinations_csv in
  Ok {| confirmed_data := confirmed;
        deaths_data := deaths;
        vaccination_data := vacc;
        country_data := merge_country_data confirmed deaths vacc |}.

End Pipeline.

(** ** Frames as the callback reads them *)

Inductive column :=
| TextColumn (values : list (option string))
| NumColumn (values : list cell)
| DateColumn (values : list (option Timestamp)).

(** [country_data[name]] (line 131): the four columns left by the merges;
    [None] stands for the [KeyError] of any other name. *)
Definition country_data_column (cd : list country_row) (name : string)
    : option column :=
  if name =? "Country" then Some (TextColumn (map (fun r => Some (Country r)) cd))
  else if name =? "Confirmed Cases" then Some (NumColumn (map Confirmed_Cases cd))
  else if name =? "Deaths" then Some (NumColumn (map Deaths cd))
  else if name =? "total_vaccinations" then Some (NumColumn (map total_vaccinations cd))
  else None.

(** The time-series frame selected at lines 141-146: a slice of one of
    the two case tables, whose value column was named by [melt], or a
    slice of the vaccination table. *)
Inductive ts_frame :=
| CaseFrame (value_name : string) (rows : list case_row)
| VaccFrame (rows : list vacc_row).

Definition frame_empty (f : ts_frame) : bool :=
  match f with
  | CaseFrame _ [] | VaccFrame [] => true
  | _ => false
  end.

Definition frame_column (f : ts_frame) (name : string) : option column :=
  match f with
  | CaseFrame value_name rows =>
      if name =? "Province/State" then Some (TextColumn (map c_province rows))
      else if name =? "Country/Region" then Some (TextColumn (map (fun r => Some (c_country r)) rows))
      else if name =? "Lat" then Some (TextColumn (map (fun r => Some (c_lat r)) rows))
      else if name =? "Long" then Some (TextColumn (map (fun r => Some (c_long r)) rows))
      else if name =? "Date" then Some (DateColumn (map (fun r => Some (c_date r)) rows))
      else if name =? value_name then Some (NumColumn (map c_value rows))
      else None
  | VaccFrame rows =>
      if name =? "Country" then Some (TextColumn (map (fun r => Some (v_country r)) rows))
      else if name =? "Date" then Some (DateColumn (map v_date rows))
      else if name =? "total_vaccinations" then Some (NumColumn (map v_total rows))
      else None
  end.

(** ** Figures *)

Inductive figure :=
| EmptyFigure
| Choropleth (locations : list string) (z : column)
    (colorbar_title : string) (title : string)
| LineFigure (x y : column) (title : string).

(** [px.line(frame, x=..., y=..., title=...)]: a column name that the
    frame does not have is a [ValueError]. *)
Definition px_line (f : ts_frame) (x y title : string) : result figure :=
  match frame_column f x with
  | None => Raise (ValueError x)
  | Some xs =>
      match frame_column f y with
      | None => Raise (ValueError y)
      | Some ys => Ok (LineFigure xs ys title)
      end
  end.

(** ** update_visualizations (lines 122-160) *)

(** [not s] for a dropdown value. *)
Definition falsy (s : option string) : bool :=
  match s with
  | None => true
  | Some s => s =? ""
  end.

(** Lines 141-146. *)
Definition select_ts_data (st : store) (selected_country selected_data : string)
    : ts_frame :=
  if selected_data =? "total_vaccinations" then
    VaccFrame (filter (fun r => v_country r =? selected_country) (vaccination_data st))
  else if selected_data =? "Confirmed Cases" then
    CaseFrame "Confirmed Cases"
      (filter (fun r => c_country r =? selected_country) (confirmed_data st))
  else
    CaseFrame "Deaths"
      (filter (fun r => c_country r =? selected_country) (deaths_data st)).

(** Lines 128-138. *)
Definition choropleth_map (st : store) (selected_data : string) : result figure :=
  match country_data_column (country_data st) selected_data with
  | None => Raise (KeyError selected_data)
  | Some z =>
      Ok (Choropleth (map Country (country_data st)) z selected_data
            ("Global " ++ selected_data ++ " Data")%string)
  end.

Definition update_visualizations (st : store)
    (selected_country selected_data : option string) : result (figure * figure) :=
  match selected_country, selected_data with
  | Some country, Some data =>
      if falsy selected_country || falsy selected_data then
        Ok (EmptyFigure, EmptyFigure)
      else
        map_figure <- choropleth_map st data ;;
        let ts_data := select_ts_data st country data in
        if frame_empty ts_data then Ok (map_figure, EmptyFigure)
        else
          time_series_figure <-
            px_line ts_data "Date" data (data ++ " Over Time in " ++ country)%string ;;
          Ok (map_figure, time_series_figure)
  | _, _ => Ok (EmptyFigure, EmptyFigure)
  end.

(** The countries offered by the country dropdown (line 75) and drawn on
    the map: the [Country] column of [country_data]. *)
Definition universe (st : store) : list string :=
  map Country (country_data st).

(** ** The dropdowns of the layout (lines 73-104) *)

(** [Series.unique()]: the values in the order of their first
    appearance. *)
Fixpoint unique (l : list string) : list string :=
  match l with
  | [] => []
  | x :: t => x :: filter (fun y => negb (y =? x)) (unique t)
  end.

(** A [dcc.Dropdown]: its options as label and value, and its initial
    value. *)
Record dropdown := {
  options : list (string * string);
  value : string
}.

(** Lines 73-76. *)
Definition country_dropdown (st : store) : dropdown :=
  {| options := map (fun country => (country, country))
                    (unique (map Country (country_data st)));
     value := "India" |}.

(** Lines 87-94. *)
Definition data_dropdown : dropdown :=
  {| options := [("Confirmed Cases", "Confirmed Cases");
                 ("Deaths", "Deaths");
                 ("Vaccinations", "total_vaccinations")];
     value := "Confirmed Cases" |}.

(** ** A date parser and three small sources for the examples *)

Module Examples.

(** A parser for the two layouts the sources use, [M/D/YY] in the headers
    of the case tables and [YYYY-MM-DD] in the vaccination table; any
    other text is not a date.  It instantiates the parameter
    [to_datetime] in the examples. *)

Fixpoint split_on (sep : ascii) (s : string) : list string :=
  match s with
  | EmptyString => [EmptyString]
  | String c rest =>
      let parts := split_on sep rest in
      if Ascii.eqb c sep then EmptyString :: parts
      else match parts with
           | [] => [String c EmptyString]
           | p :: ps => String c p :: ps
           end
  end.

Definition digit (c : ascii) : option Z :=
  let n := Z.of_N (N_of_ascii c) in
  if (48 <=? n)%Z && (n <=? 57)%Z then Some (n - 48) else None.

Fixpoint number_from (acc : Z) (s : string) : option Z :=
  match s with
  | EmptyString => Some acc
  | String c rest =>
      match digit c with
      | Some d => number_from (10 * acc + d) rest
      | None => None
      end
  end.

Definition number (s : string) : option Z :=
  match s with
  | EmptyString => None
  | _ => number_from 0 s
  end.

Definition is_leap (y : Z) : bool :=
  ((y mod 4 =? 0)%Z && negb (y mod 100 =? 0)%Z) || (y mod 400 =? 0)%Z.

Definition days_in_month (y m : Z) : Z :=
  if (m =? 2)%Z then (if is_leap y then 29 else 28)
  else if (m =? 4)%Z || (m =? 6)%Z || (m =? 9)%Z || (m =? 11)%Z then 30
  else 31.

(** Days from 1970-01-01 to the civil date [y-m-d]. *)
Definition days_from_civil (y m d : Z) : Z :=
  let y' := if (m <=? 2)%Z then y - 1 else y in
  let era := y' / 400 in
  let yoe := y' - era * 400 in
  let mp := (m + 9) mod 12 in
  let doy := (153 * mp + 2) / 5 + d - 1 in
  let doe := yoe * 365 + yoe / 4 - yoe / 100 + doy in
  era * 146097 + doe - 719468.

Definition civil (y m d : Z) : option Timestamp :=
  if (1 <=? m)%Z && (m <=? 12)%Z && (1 <=? d)%Z && (d <=? days_in_month y m)%Z
  then Some (days_from_civil y m d * 86400000000000)
  else None.

Definition parse_date (s : string) : option Timestamp :=
  match map number (split_on "/" s) with
  | [Some m; Some d; Some y] => civil (2000 + y) m d
  | _ =>
      match map number (split_on "-" s) with
      | [Some y; Some m; Some d] => civil y m d
      | _ => None
      end
  end.

Definition row (province : option string) (country : string)
    (values : list Z) : wide_row :=
  {| ident := {| Province_State := province; Country_Region := country;
                 Lat := "0.0"; Long := "0.0" |};
     cells := map Some values |}.

(** One country in two sub-national rows, values 5 and 7 on one date. *)
Definition two_provinces : wide_table :=
  {| date_labels := ["1/22/20"];
     wide_rows := [row (Some "New South Wales") "Australia" [5];
                   row (Some "Victoria") "Australia" [7]] |}.

Definition ex_confirmed : wide_table :=
  {| date_labels := ["1/22/20"; "1/23/20"];
     wide_rows := [row (Some "New South Wales") "Australia" [5; 6];
                   row (Some "Victoria") "Australia" [7; 9];
                   row None "India" [1; 2]] |}.

(** India has no row in the deaths source. *)
Definition ex_deaths : wide_table :=
  {| date_labels := ["1/22/20"; "1/23/20"];
     wide_rows := [row (Some "New South Wales") "Australia" [0; 1];
                   row (Some "Victoria") "Australia" [0; 0]] |}.

(** The vaccination source spells India in lower case, has a row whose
    date is not a date, and a country the confirmed source lacks. *)
Definition ex_vaccinations : list vacc_raw :=
  [ {| location := "india"; date := "2021-01-16";
       raw_total_vaccinations := Some 100 |};
    {| location := "Australia"; date := "not a date";
       raw_total_vaccinations := Some 50 |};
    {| location := "Gibraltar"; date := "2021-01-10";
       raw_total_vaccinations := Some 10 |} ].


Definition ex_build : result store :=
  build parse_date ex_confirmed ex_deaths ex_vaccinations.

Definition two_provinces_build : result store :=
  build parse_date two_provinces two_provinces [].

Definition empty_store : store :=
  {| confirmed_data := []; deaths_data := [];
     vaccination_data := []; country_data := [] |}.

Definition ex_store : store :=
  Eval vm_compute in
    match ex_build with Ok st => st | Raise _ => empty_store end.

Definition two_provinces_store : store :=
  Eval vm_compute in
    match two_provinces_build with Ok st => st | Raise _ => empty_store end.

End Examples.

(** ** Vocabulary of the statements *)

(** The right-hand value a key finds in a summary: NaN when the key is
    not there. *)
Definition lookup_cell (right : list (string * cell)) (k : string) : cell :=
  match filter (fun kb => fst kb =? k) right with
  | [] => None
  | kb :: _ => snd kb
  end.

(** The row of [country_data] for the key [k]. *)
Definition country_row_of (confirmed deaths : list case_row)
    (vacc : list vacc_row) (k : string) : country_row :=
  {| Country := k;
     Confirmed_Cases := max_skipna (group_values c_country c_value confirmed k);
     Deaths := max_skipna (group_values c_country c_value deaths k);
     total_vaccinations :=
       fillna0 (max_skipna (group_values v_country v_total vacc k)) |}.

Definition slt (a b : string) : Prop := String.compare a b = Lt.

(** What [parse_dates] makes of one melted row. *)
Definition parsed_from (to_datetime : string -> option Timestamp)
    (m : melted_row) (r : case_row) : Prop :=
  to_datetime (m_label m) = Some (c_date r)
  /\ c_province r = Province_State (m_ident m)
  /\ c_country r = Country_Region (m_ident m)
  /\ c_lat r = Lat (m_ident m)
  /\ c_long r = Long (m_ident m)
  /\ c_value r = m_value m.

Definition source_countries (t : wide_table) : list string :=
  map (fun r => Country_Region (ident r)) (wide_rows t).

(** [v] is what [max] gives for the rows of country [k]: the largest
    value that is not NaN, over all provinces and all dates, and NaN when
    the country has no such value. *)
Definition is_country_max (rows : list case_row) (k : string) (v : cell) : Prop :=
  match v with
  | Some m =>
      (exists r, In r rows /\ c_country r = k /\ c_value r = Some m)
      /\ (forall r x, In r rows -> c_country r = k -> c_value r = Some x -> x <= m)
  | None => forall r, In r rows -> c_country r = k -> c_value r = None
  end.

(** The three values of the metric dropdown (lines 90-92). *)
Definition recognised (selected_data : string) : Prop :=
  selected_data = "Confirmed Cases" \/ selected_data = "Deaths"
  \/ selected_data = "total_vaccinations".

(** The column names of [country_data]. *)
Definition country_data_columns : list string :=
  ["Country"; "Confirmed Cases"; "Deaths"; "total_vaccinations"].

(** Counting the records of a history. *)
Definition parses_to (to_datetime : string -> option Timestamp)
    (d : Timestamp) (text : string) : bool :=
  match to_datetime text with
  | Some d' => Z.eqb d' d
  | None => false
  end.

(** The number of rows of a time-series frame that carry the date [d]. *)
Definition frame_records_on (f : ts_frame) (d : Timestamp) : nat :=
  match f with
  | CaseFrame _ rows =>
      List.length (filter (fun r => Z.eqb (c_date r) d) rows)
  | VaccFrame rows =>
      List.length (filter (fun r => match v_date r with
                                    | Some d' => Z.eqb d' d
                                    | None => false
                                    end) rows)
  end.

(** The number of rows a wide source has for the country [k]. *)
Definition source_rows_of (t : wide_table) (k : string) : nat :=
  List.length (filter (fun r => Country_Region (ident r) =? k) (wide_rows t)).

(** The number of date columns of a wide source whose header is the
    date [d]. *)
Definition columns_on (to_datetime : string -> option Timestamp)
    (t : wide_table) (d : Timestamp) : nat :=
  List.length (filter (parses_to to_datetime d) (date_labels t)).

(** The round trip of [melt].  The long rows of one identity and one date
    label, the sum of their values (a NaN adds nothing), and the sum of the
    cells the wide table holds for that identity under that label. *)
Definition cell0 (c : cell) : Z :=
  match c with
  | Some v => v
  | None => 0
  end.

Definition sumZ (l : list Z) : Z := fold_right Z.add 0 l.

Definition in_group (id : identity) (lab : string) (m : melted_row) : bool :=
  identity_eqb (m_ident m) id && (m_label m =? lab).

Definition reaggregate (long : list melted_row) (id : identity) (lab : string) : Z :=
  sumZ (map (fun m => cell0 (m_value m)) (filter (in_group id lab) long)).

Definition row_total (cols : list (nat * string)) (lab : string) (r : wide_row) : Z :=
  sumZ (map (fun jl => cell0 (nth (fst jl) (cells r) None))
            (filter (fun jl => snd jl =? lab) cols)).

Definition wide_total (t : wide_table) (id : identity) (lab : string) : Z :=
  sumZ (map (row_total (enumerate (date_labels t)) lab)
            (filter (fun r => identity_eqb (ident r) id) (wide_rows t))).

(** Date headers in ascending order of their dates. *)
Definition label_le (to_datetime : string -> option Timestamp)
    (a b : string) : Prop :=
  forall da db, to_datetime a = Some da -> to_datetime b = Some db -> da <= db.

(** * Properties *)

(** ** Group keys: sorted, without repetition, the keys of the rows *)

Lemma compare_as_OT (a b : string) :
  String.compare a b = String_as_OT.compare a b.
Proof.
  revert b; induction a as [|c a IH]; intros [|d b]; reflexivity.
Qed.

Lemma slt_trans (a b c : string) : slt a b -> slt b c -> slt a c.
Proof.
  unfold slt. rewrite !compare_as_OT.
  apply (@StrictOrder_Transitive _ _ String_as_OT.lt_strorder).
Qed.

Lemma slt_irrefl (a : string) : ~ slt a a.
Proof.
  unfold slt. rewrite compare_as_OT.
  apply (@StrictOrder_Irreflexive _ _ String_as_OT.lt_strorder).
Qed.

Lemma compare_Gt_slt (a b : string) : String.compare a b = Gt -> slt b a.
Proof.
  unfold slt. intros H. rewrite String.compare_antisym, H. reflexivity.
Qed.

Lemma insert_key_In (k x : string) (ks : list string) :
  In x (insert_key k ks) <-> x = k \/ In x ks.
Proof.
  induction ks as [|h t IH]; simpl.
  - intuition.
  - destruct (String.compare k h) eqn:E; simpl.
    + apply String.compare_eq_iff in E. subst h. intuition.
    + intuition.
    + rewrite IH. intuition.
Qed.

Lemma insert_key_sorted (k : string) (ks : list string) :
  StronglySorted slt ks -> StronglySorted slt (insert_key k ks).
Proof.
  induction 1 as [|h t Ht IH Hall]; simpl.
  - constructor; constructor.
  - destruct (String.compare k h) eqn:E.
    + constructor; assumption.
    + constructor; [constructor; assumption|].
      constructor; [exact E|].
      eapply Forall_impl; [|exact Hall].
      intros y Hy. exact (slt_trans _ _ _ E Hy).
    + constructor; [exact IH|].
      apply Forall_forall. intros y Hy.
      apply insert_key_In in Hy. destruct Hy as [->|Hy].
      * apply compare_Gt_slt; exact E.
      * rewrite Forall_forall in Hall. auto.
Qed.

Lemma group_keys_In (x : string) (ks : list string) :
  In x (group_keys ks) <-> In x ks.
Proof.
  induction ks as [|k t IH]; simpl; [reflexivity|].
  rewrite insert_key_In, IH. intuition.
Qed.

Lemma group_keys_sorted (ks : list string) : StronglySorted slt (group_keys ks).
Proof.
  induction ks; simpl; [constructor | apply insert_key_sorted; assumption].
Qed.

Lemma sorted_NoDup (ks : list string) : StronglySorted slt ks -> NoDup ks.
Proof.
  induction 1 as [|h t Ht IH Hall]; constructor; [|exact IH].
  intros Hin. rewrite Forall_forall in Hall.
  exact (slt_irrefl _ (Hall _ Hin)).
Qed.

Lemma group_keys_NoDup (ks : list string) : NoDup (group_keys ks).
Proof. apply sorted_NoDup, group_keys_sorted. Qed.

(** ** [max] of a group *)

Lemma max_skipna_Some (vs : list cell) (m : Z) :
  max_skipna vs = Some m ->
  In (Some m) vs /\ forall x, In (Some x) vs -> x <= m.
Proof.
  revert m; induction vs as [|v t IH]; simpl; intros m H; [discriminate|].
  destruct v as [a|]; simpl in H.
  - destruct (max_skipna t) as [b|] eqn:E.
    + injection H as <-. destruct (IH b eq_refl) as [Hin Hmax]. split.
      * destruct (Z.max_spec a b) as [[_ ->]|[_ ->]]; auto.
      * intros x [Hx|Hx]; [injection Hx as <-; lia|].
        specialize (Hmax x Hx). lia.
    + injection H as <-. split; [auto|].
      intros x [Hx|Hx]; [injection Hx as <-; lia|].
      exfalso. clear IH. induction t as [|[c|] t IHt]; simpl in *;
        try contradiction.
      * destruct (max_skipna t); discriminate.
      * destruct Hx as [Hx|Hx]; [discriminate|auto].
  - destruct (IH m H) as [Hin Hmax]. split; [auto|].
    intros x [Hx|Hx]; [discriminate|auto].
Qed.

Lemma max_skipna_None (vs : list cell) :
  max_skipna vs = None -> forall c, In c vs -> c = None.
Proof.
  induction vs as [|v t IH]; simpl; intros H c Hc; [contradiction|].
  destruct v as [a|]; simpl in H.
  - destruct (max_skipna t); discriminate.
  - destruct Hc as [<-|Hc]; auto.
Qed.

(** ** Summaries and left merges *)

Lemma groupby_max_keys {R} (key : R -> string) (val : R -> cell) (rows : list R) :
  map fst (groupby_max key val rows) = group_keys (map key rows).
Proof.
  unfold groupby_max. rewrite map_map. simpl. apply map_id.
Qed.

Lemma group_values_absent {R} (key : R -> string) (val : R -> cell)
    (rows : list R) (k : string) :
  ~ In k (map key rows) -> group_values key val rows k = [].
Proof.
  unfold group_values. induction rows as [|r t IH]; simpl; intros H; [reflexivity|].
  destruct (String.eqb_spec (key r) k) as [E|E].
  - exfalso. apply H. left. exact E.
  - apply IH. intros Hin. apply H. right. exact Hin.
Qed.

Lemma lookup_cell_tabulate (f : string -> cell) (keys : list string) (k : string) :
  lookup_cell (map (fun k' => (k', f k')) keys) k
  = if existsb (fun k' => k' =? k) keys then f k else None.
Proof.
  unfold lookup_cell. induction keys as [|h t IH]; simpl; [reflexivity|].
  destruct (String.eqb_spec h k) as [->|E]; simpl; [reflexivity | exact IH].
Qed.

Lemma lookup_groupby_max {R} (key : R -> string) (val : R -> cell)
    (rows : list R) (k : string) :
  lookup_cell (groupby_max key val rows) k
  = max_skipna (group_values key val rows k).
Proof.
  unfold groupby_max. rewrite lookup_cell_tabulate.
  destruct (existsb _ _) eqn:E; [reflexivity|].
  rewrite group_values_absent; [reflexivity|].
  intros Hin. apply <- group_keys_In in Hin.
  assert (existsb (fun k' => k' =? k) (group_keys (map key rows)) = true) as H.
  { apply existsb_exists. exists k. split; [exact Hin | apply String.eqb_refl]. }
  congruence.
Qed.

Lemma filter_unique_key (right : list (string * cell)) (k : string) :
  NoDup (map fst right) ->
  filter (fun kb => fst kb =? k) right = []
  \/ filter (fun kb => fst kb =? k) right = [(k, lookup_cell right k)].
Proof.
  unfold lookup_cell.
  induction right as [|[h v] t IH]; simpl; intros Hnd; [left; reflexivity|].
  inversion Hnd as [|? ? Hnotin Hnd']; subst.
  destruct (String.eqb_spec h k) as [->|E]; simpl.
  - right. f_equal.
    destruct (filter (fun kb => fst kb =? k) t) as [|[h' v'] rest] eqn:F;
      [reflexivity|].
    exfalso. apply Hnotin.
    assert (In (h', v') (filter (fun kb => fst kb =? k) t)) as Hin
      by (rewrite F; left; reflexivity).
    apply filter_In in Hin. destruct Hin as [Hin Hk]. simpl in Hk.
    apply String.eqb_eq in Hk. subst h'.
    apply in_map_iff. exists (k, v'). split; [reflexivity | exact Hin].
  - apply IH. exact Hnd'.
Qed.

(** With distinct keys on the right, a left merge keeps every left row
    exactly once, in order. *)
Lemma merge_left_unique {L O} (lkey : L -> string) (combine_row : L -> cell -> O)
    (left : list L) (right : list (string * cell)) :
  NoDup (map fst right) ->
  merge_left lkey combine_row left right
  = map (fun l => combine_row l (lookup_cell right (lkey l))) left.
Proof.
  intros Hnd. unfold merge_left.
  induction left as [|l t IH]; [reflexivity|].
  change (l :: t) with ([l] ++ t).
  rewrite flat_map_app, IH. cbn [flat_map map app]. rewrite app_nil_r.
  destruct (filter_unique_key right (lkey l) Hnd) as [E|E].
  - unfold lookup_cell. rewrite E. reflexivity.
  - rewrite E. reflexivity.
Qed.

Lemma merge_country_data_rows (confirmed deaths : list case_row)
    (vacc : list vacc_row) :
  merge_country_data confirmed deaths vacc
  = map (country_row_of confirmed deaths vacc)
        (group_keys (map c_country confirmed)).
Proof.
  unfold merge_country_data, confirmed_summary, deaths_summary,
    vaccination_summary.
  rewrite !merge_left_unique
    by (rewrite groupby_max_keys; apply group_keys_NoDup).
  rewrite !map_map.
  change (groupby_max c_country c_value confirmed)
    with (map (fun k => (k, max_skipna (group_values c_country c_value confirmed k)))
              (group_keys (map c_country confirmed))).
  rewrite map_map.
  apply map_ext. intros k. unfold country_row_of. simpl.
  rewrite !lookup_groupby_max. reflexivity.
Qed.

(** ** Loading the case tables *)

Lemma parse_dates_Forall2 (to_datetime : string -> option Timestamp)
    (rows : list melted_row) (long : list case_row) :
  parse_dates to_datetime rows = Ok long ->
  Forall2 (parsed_from to_datetime) rows long.
Proof.
  revert long; induction rows as [|m rest IH]; simpl; intros long H.
  - injection H as <-. constructor.
  - destruct (to_datetime (m_label m)) as [d|] eqn:E; [|discriminate].
    destruct (parse_dates to_datetime rest) as [rest'|e]; simpl in H;
      [|discriminate].
    injection H as <-. constructor; [|apply IH; reflexivity].
    unfold parsed_from; simpl. auto 10.
Qed.

Lemma Forall2_map_eq {A B C} (R : A -> B -> Prop) (f : A -> C) (g : B -> C)
    (l1 : list A) (l2 : list B) :
  (forall a b, R a b -> f a = g b) ->
  Forall2 R l1 l2 -> map f l1 = map g l2.
Proof.
  intros Hfg. induction 1; simpl; [reflexivity|].
  f_equal; auto.
Qed.

Lemma load_cases_countries (to_datetime : string -> option Timestamp)
    (t : wide_table) (long : list case_row) :
  load_cases to_datetime t = Ok long ->
  map c_country long = map (fun m => Country_Region (m_ident m)) (melt t).
Proof.
  intros H. apply parse_dates_Forall2 in H. symmetry.
  apply (Forall2_map_eq (parsed_from to_datetime)); [|exact H].
  intros a b Hab. symmetry. apply Hab.
Qed.

Lemma build_inv (to_datetime : string -> option Timestamp)
    (c d : wide_table) (v : list vacc_raw) (st : store) :
  build to_datetime c d v = Ok st ->
  load_cases to_datetime c = Ok (confirmed_data st)
  /\ load_cases to_datetime d = Ok (deaths_data st)
  /\ vaccination_data st = load_vaccinations to_datetime v
  /\ country_data st
     = merge_country_data (confirmed_data st) (deaths_data st)
         (vaccination_data st).
Proof.
  unfold build. intros H.
  destruct (load_cases to_datetime c) as [conf|e]; simpl in H; [|discriminate].
  destruct (load_cases to_datetime d) as [dth|e]; simpl in H; [|discriminate].
  injection H as <-. simpl. auto.
Qed.

Lemma in_melt (t : wide_table) (m : melted_row) :
  In m (melt t) <->
  exists jl r, In jl (enumerate (date_labels t)) /\ In r (wide_rows t)
               /\ m = {| m_ident := ident r; m_label := snd jl;
                         m_value := nth (fst jl) (cells r) None |}.
Proof.
  unfold melt, melt_column. rewrite in_flat_map. split.
  - intros (jl & Hjl & Hm). apply in_map_iff in Hm.
    destruct Hm as (r & <- & Hr). eauto.
  - intros (jl & r & Hjl & Hr & ->). exists jl. split; [exact Hjl|].
    apply in_map_iff. eauto.
Qed.



(** ** The snapshot values *)

Lemma in_group_values {R} (key : R -> string) (val : R -> cell)
    (rows : list R) (k : string) (c : cell) :
  In c (group_values key val rows k)
  <-> exists r, In r rows /\ key r = k /\ val r = c.
Proof.
  unfold group_values. rewrite in_map_iff. split.
  - intros (r & <- & Hr). apply filter_In in Hr. destruct Hr as [Hr Hk].
    apply String.eqb_eq in Hk. eauto.
  - intros (r & Hr & Hk & <-). exists r. split; [reflexivity|].
    apply filter_In. split; [exact Hr | apply String.eqb_eq; exact Hk].
Qed.

Lemma group_max_is_country_max (rows : list case_row) (k : string) :
  is_country_max rows k (max_skipna (group_values c_country c_value rows k)).
Proof.
  unfold is_country_max.
  destruct (max_skipna _) as [m|] eqn:E.
  - apply max_skipna_Some in E. destruct E as [Hin Hmax]. split.
    + apply in_group_values in Hin. exact Hin.
    + intros r x Hr Hk Hv. apply Hmax. apply in_group_values. eauto.
  - intros r Hr Hk. apply (max_skipna_None _ E). apply in_group_values. eauto.
Qed.

Lemma in_country_data (confirmed deaths : list case_row) (vacc : list vacc_row)
    (r : country_row) :
  In r (merge_country_data confirmed deaths vacc) <->
  In (Country r) (map c_country confirmed)
  /\ r = country_row_of confirmed deaths vacc (Country r).
Proof.
  rewrite merge_country_data_rows, in_map_iff. split.
  - intros (k & <- & Hk). apply -> group_keys_In in Hk.
    split; [exact Hk | reflexivity].
  - intros (Hk & Hr). exists (Country r). split; [symmetry; exact Hr|].
    apply group_keys_In. exact Hk.
Qed.

(** C1, as the code has it: the summaries group by country alone and keep
    the maximum.  In every row of [country_data] the confirmed value and
    the deaths value are the largest value among all rows of that country
    in the respective table, whatever their province and date (NaN when
    there is none); nothing is summed. *)
Theorem snapshot_is_country_max
    (to_datetime : string -> option Timestamp)
    (confirmed_csv deaths_csv : wide_table) (vaccinations_csv : list vacc_raw)
    (st : store) (r : country_row) :
  build to_datetime confirmed_csv deaths_csv vaccinations_csv = Ok st ->
  In r (country_data st) ->
  is_country_max (confirmed_data st) (Country r) (Confirmed_Cases r)
  /\ is_country_max (deaths_data st) (Country r) (Deaths r).
Proof.
  intros Hb Hr. destruct (build_inv _ _ _ _ _ Hb) as (_ & _ & _ & Hcd).
  rewrite Hcd in Hr. apply in_country_data in Hr. destruct Hr as [_ ->].
  simpl. split; apply group_max_is_country_max.
Qed.

Lemma snapshot_is_country_max_witness :
  is_country_max (confirmed_data Examples.two_provinces_store) "Australia" (Some 7)
  /\ is_country_max (deaths_data Examples.two_provinces_store) "Australia" (Some 7).
Proof.
  apply (snapshot_is_country_max Examples.parse_date
           Examples.two_provinces Examples.two_provinces []
           Examples.two_provinces_store
           {| Country := "Australia"; Confirmed_Cases := Some 7;
              Deaths := Some 7; total_vaccinations := Some 0 |}).
  - reflexivity.
  - simpl. left. reflexivity.
Defined.

(** C1 fails as stated: two sub-national rows of one country with 5 and 7
    on the same date give the national snapshot value 7, and the history
    of the country keeps the two rows apart; 12 appears nowhere. *)
Lemma two_rows_5_and_7_give_7 :
  Examples.two_provinces_build = Ok Examples.two_provinces_store
  /\ update_visualizations Examples.two_provinces_store
       (Some "Australia") (Some "Confirmed Cases")
     = Ok (Choropleth ["Australia"] (NumColumn [Some 7]) "Confirmed Cases"
             "Global Confirmed Cases Data",
           LineFigure
             (DateColumn [Some 1579651200000000000; Some 1579651200000000000])
             (NumColumn [Some 5; Some 7])
             "Confirmed Cases Over Time in Australia").
Proof. split; reflexivity. Qed.

Lemma country_data_deaths_absent (confirmed deaths : list case_row)
    (vacc : list vacc_row) (r : country_row) :
  In r (merge_country_data confirmed deaths vacc) ->
  ~ In (Country r) (map c_country deaths) -> Deaths r = None.
Proof.
  intros Hr Habs. apply in_country_data in Hr. destruct Hr as [_ ->].
  simpl. rewrite group_values_absent by exact Habs. reflexivity.
Qed.

Lemma country_data_vaccinations_filled (confirmed deaths : list case_row)
    (vacc : list vacc_row) (r : country_row) :
  In r (merge_country_data confirmed deaths vacc) ->
  total_vaccinations r <> None
  /\ (~ In (Country r) (map v_country vacc) -> total_vaccinations r = Some 0).
Proof.
  intros Hr. apply in_country_data in Hr. destruct Hr as [_ ->]. simpl. split.
  - destruct (max_skipna _); discriminate.
  - intros Habs. rewrite group_values_absent by exact Habs. reflexivity.
Qed.

(** C4, the deaths column: India is in the confirmed source, has no row in
    the deaths source and none under that spelling in the vaccination
    source.  Line 48 fills its vaccination value with 0; its deaths value
    stays NaN, since no [fillna] is applied to the [Deaths] column. *)
Theorem deaths_not_zero_filled :
  Examples.ex_build = Ok Examples.ex_store
  /\ In "India" (universe Examples.ex_store)
  /\ filter (fun r => c_country r =? "India") (deaths_data Examples.ex_store) = []
  /\ In {| Country := "India"; Confirmed_Cases := Some 2;
           Deaths := None; total_vaccinations := Some 0 |}
        (country_data Examples.ex_store)
  /\ update_visualizations Examples.ex_store (Some "India") (Some "Deaths")
     = Ok (Choropleth ["Australia"; "India"] (NumColumn [Some 1; None])
             "Deaths" "Global Deaths Data",
           EmptyFigure).
Proof.
  repeat split; try reflexivity; simpl; auto.
Qed.






(** ** The join key *)

Lemma load_vaccinations_group (to_datetime : string -> option Timestamp)
    (raw : list vacc_raw) (k : string) :
  group_values v_country v_total (load_vaccinations to_datetime raw) k
  = map raw_total_vaccinations (filter (fun x => location x =? k) raw).
Proof.
  unfold group_values, load_vaccinations.
  induction raw as [|x t IH]; simpl; [reflexivity|].
  destruct (location x =? k); simpl; rewrite IH; reflexivity.
Qed.

Lemma loaded_country_in_source (to_datetime : string -> option Timestamp)
    (t : wide_table) (long : list case_row) (k : string) :
  load_cases to_datetime t = Ok long ->
  In k (map c_country long) -> In k (source_countries t).
Proof.
  intros H Hk. rewrite (load_cases_countries _ _ _ H) in Hk.
  apply in_map_iff in Hk. destruct Hk as (m & <- & Hm).
  apply in_melt in Hm. destruct Hm as (jl & r & _ & Hr & ->). simpl.
  unfold source_countries. apply in_map_iff. eauto.
Qed.

(** C5, as the code has it: there is no normalisation step.  The key of a
    [country_data] row is a [Country/Region] string of the confirmed source
    as it stands; [Province/State] is no part of it, there is one row for
    the string whatever the provinces.  The deaths and vaccination values
    of the row come from the rows whose [Country/Region], or [location], is
    that very string, and a key with no vaccination row under exactly that
    string gets 0. *)
Theorem join_key_is_raw_string
    (to_datetime : string -> option Timestamp)
    (confirmed_csv deaths_csv : wide_table) (vaccinations_csv : list vacc_raw)
    (st : store) (r : country_row) :
  build to_datetime confirmed_csv deaths_csv vaccinations_csv = Ok st ->
  In r (country_data st) ->
  In (Country r) (source_countries confirmed_csv)
  /\ Deaths r
     = max_skipna (map c_value
         (filter (fun x => c_country x =? Country r) (deaths_data st)))
  /\ total_vaccinations r
     = fillna0 (max_skipna (map raw_total_vaccinations
         (filter (fun x => location x =? Country r) vaccinations_csv)))
  /\ ((forall x, In x vaccinations_csv -> location x <> Country r) ->
      total_vaccinations r = Some 0)
  /\ (forall r', In r' (country_data st) -> Country r' = Country r -> r' = r).
Proof.
  intros Hb Hr. destruct (build_inv _ _ _ _ _ Hb) as (Hc & _ & Hv & Hcd).
  assert (forall r', In r' (country_data st) -> Country r' = Country r -> r' = r)
    as Hone.
  { intros r' Hr' E. rewrite Hcd in Hr, Hr'.
    apply in_country_data in Hr, Hr'.
    destruct Hr as [_ Hr], Hr' as [_ Hr']. rewrite Hr, Hr', E. reflexivity. }
  rewrite Hcd in Hr. apply in_country_data in Hr. destruct Hr as [Hk Hr].
  assert (total_vaccinations r
          = fillna0 (max_skipna (map raw_total_vaccinations
              (filter (fun x => location x =? Country r) vaccinations_csv))))
    as Hvac.
  { rewrite Hr at 1. simpl. rewrite Hv, load_vaccinations_group. reflexivity. }
  split; [exact (loaded_country_in_source _ _ _ _ Hc Hk)|].
  split; [rewrite Hr at 1; reflexivity|].
  split; [exact Hvac|].
  split; [|exact Hone].
  intros Hnone. rewrite Hvac.
  replace (filter (fun x => location x =? Country r) vaccinations_csv)
    with (@nil vacc_raw); [reflexivity|].
  symmetry. clear -Hnone.
  induction vaccinations_csv as [|x t IH]; simpl; [reflexivity|].
  destruct (String.eqb_spec (location x) (Country r)) as [E|_].
  - exfalso. apply (Hnone x); [left; reflexivity | exact E].
  - apply IH. intros y Hy. apply Hnone. right. exact Hy.
Qed.

Lemma join_key_is_raw_string_witness :
  In "India" (source_countries Examples.ex_confirmed)
  /\ None = max_skipna (map c_value
       (filter (fun x => c_country x =? "India")
          (deaths_data Examples.ex_store)))
  /\ Some 0 = fillna0 (max_skipna (map raw_total_vaccinations
       (filter (fun x => location x =? "India") Examples.ex_vaccinations)))
  /\ ((forall x, In x Examples.ex_vaccinations -> location x <> "India") ->
      Some 0 = Some 0)
  /\ (forall r', In r' (country_data Examples.ex_store) ->
       Country r' = "India" ->
       r' = {| Country := "India"; Confirmed_Cases := Some 2;
               Deaths := None; total_vaccinations := Some 0 |}).
Proof.
  apply (join_key_is_raw_string Examples.parse_date
           Examples.ex_confirmed Examples.ex_deaths Examples.ex_vaccinations
           Examples.ex_store
           {| Country := "India"; Confirmed_Cases := Some 2;
              Deaths := None; total_vaccinations := Some 0 |}).
  - reflexivity.
  - simpl. right. left. reflexivity.
Defined.

(** C5 fails as stated: the vaccination source spells the country [india]
    and carries 100 for it, the confirmed source spells it [India]; the two
    differ only in case and are not joined, India's vaccination value is
    the fill value 0. *)
Lemma case_variants_are_not_joined :
  In {| v_country := "india"; v_date := Some 1610755200000000000;
        v_total := Some 100 |} (vaccination_data Examples.ex_store)
  /\ Examples.ex_build = Ok Examples.ex_store
  /\ map (fun r => (Country r, total_vaccinations r))
       (country_data Examples.ex_store)
     = [("Australia", Some 50); ("India", Some 0)].
Proof.
  split; [left; reflexivity|]. split; reflexivity.
Qed.

(** ** The vaccination table *)

(** C7, as the code has it: [errors="coerce"] turns a date that does not
    parse into NaT and keeps the row.  The table has as many rows as the
    source, a row with such a date is in it with its date missing, and the
    vaccination source never makes the pipeline fail. *)
Theorem unparsable_date_row_is_kept
    (to_datetime : string -> option Timestamp) (raw : list vacc_raw) :
  List.length (load_vaccinations to_datetime raw) = List.length raw
  /\ (forall r, In r raw -> to_datetime (date r) = None ->
        In {| v_country := location r; v_date := None;
              v_total := raw_total_vaccinations r |}
           (load_vaccinations to_datetime raw))
  /\ (forall confirmed_csv deaths_csv conf dth,
        load_cases to_datetime confirmed_csv = Ok conf ->
        load_cases to_datetime deaths_csv = Ok dth ->
        exists st, build to_datetime confirmed_csv deaths_csv raw = Ok st
                   /\ vaccination_data st = load_vaccinations to_datetime raw).
Proof.
  split; [apply length_map|]. split.
  - intros r Hr Hd. unfold load_vaccinations. apply in_map_iff.
    exists r. rewrite Hd. auto.
  - intros c d conf dth Hc Hd. unfold build. rewrite Hc, Hd. simpl.
    eexists. split; reflexivity.
Qed.

Lemma unparsable_date_row_is_kept_witness :
  In {| v_country := "Australia"; v_date := None; v_total := Some 50 |}
     (load_vaccinations Examples.parse_date Examples.ex_vaccinations).
Proof.
  destruct (unparsable_date_row_is_kept Examples.parse_date
              Examples.ex_vaccinations) as (_ & Hkept & _).
  apply (Hkept {| location := "Australia"; date := "not a date";
                  raw_total_vaccinations := Some 50 |}).
  - simpl. right. left. reflexivity.
  - reflexivity.
Defined.

(** C7 fails as stated: the row of the vaccination source whose date is
    not a date is in the reshaped table, with a missing date. *)
Lemma unparsable_date_row_not_dropped :
  Examples.parse_date "not a date" = None
  /\ load_vaccinations Examples.parse_date Examples.ex_vaccinations
     = [ {| v_country := "india"; v_date := Some 1610755200000000000;
            v_total := Some 100 |};
         {| v_country := "Australia"; v_date := None; v_total := Some 50 |};
         {| v_country := "Gibraltar"; v_date := Some 1610236800000000000;
            v_total := Some 10 |} ].
Proof. split; reflexivity. Qed.

(** ** The callback *)

Lemma falsy_Some (s : string) : s <> "" -> falsy (Some s) = false.
Proof. intros H. simpl. apply String.eqb_neq. exact H. Qed.

Lemma update_visualizations_nonempty (st : store) (country data : string) :
  country <> "" -> data <> "" ->
  update_visualizations st (Some country) (Some data)
  = (map_figure <- choropleth_map st data ;;
     if frame_empty (select_ts_data st country data)
     then Ok (map_figure, EmptyFigure)
     else
       time_series_figure <-
         px_line (select_ts_data st country data) "Date" data
           (data ++ " Over Time in " ++ country)%string ;;
       Ok (map_figure, time_series_figure)).
Proof.
  intros Hc Hd. unfold update_visualizations.
  rewrite (falsy_Some _ Hc), (falsy_Some _ Hd). reflexivity.
Qed.

Lemma choropleth_map_recognised (st : store) (data : string) :
  recognised data -> exists m, choropleth_map st data = Ok m.
Proof.
  unfold choropleth_map. intros [-> | [-> | ->]]; simpl; eauto.
Qed.

Lemma px_line_recognised (st : store) (country data title : string) :
  recognised data ->
  exists f, px_line (select_ts_data st country data) "Date" data title = Ok f.
Proof.
  intros [-> | [-> | ->]]; unfold px_line, select_ts_data; simpl; eauto.
Qed.

Lemma recognised_nonempty (data : string) : recognised data -> data <> "".
Proof. intros [-> | [-> | ->]]; discriminate. Qed.

(** C2, as the code has it: a metric that is not empty and is not the name
    of a column of [country_data] makes the callback raise the [KeyError]
    of the column lookup at line 131, before any time series is selected. *)
Theorem unknown_metric_raises_KeyError
    (st : store) (country data : string) :
  country <> "" -> data <> "" -> ~ In data country_data_columns ->
  update_visualizations st (Some country) (Some data) = Raise (KeyError data).
Proof.
  intros Hc Hd Hcol. rewrite update_visualizations_nonempty by assumption.
  unfold choropleth_map, country_data_column.
  destruct (String.eqb_spec data "Country") as [E|_];
    [exfalso; apply Hcol; rewrite E; simpl; tauto|].
  destruct (String.eqb_spec data "Confirmed Cases") as [E|_];
    [exfalso; apply Hcol; rewrite E; simpl; tauto|].
  destruct (String.eqb_spec data "Deaths") as [E|_];
    [exfalso; apply Hcol; rewrite E; simpl; tauto|].
  destruct (String.eqb_spec data "total_vaccinations") as [E|_];
    [exfalso; apply Hcol; rewrite E; simpl; tauto|].
  reflexivity.
Qed.

Lemma unknown_metric_raises_KeyError_witness :
  update_visualizations Examples.ex_store (Some "India") (Some "not_a_metric")
  = Raise (KeyError "not_a_metric").
Proof.
  apply unknown_metric_raises_KeyError.
  - discriminate.
  - discriminate.
  - simpl. intros [H|[H|[H|[H|[]]]]]; discriminate.
Defined.

(** C2 fails as stated: [Country] is none of the three metrics, yet the
    callback returns a map drawn from the [Country] column together with
    the empty series of the deaths branch; and the empty metric returns two
    empty figures. *)
Lemma unrecognised_metric_returns_figures :
  ~ recognised "Country"
  /\ update_visualizations Examples.ex_store (Some "Atlantis") (Some "Country")
     = Ok (Choropleth ["Australia"; "India"]
             (TextColumn [Some "Australia"; Some "India"])
             "Country" "Global Country Data",
           EmptyFigure)
  /\ ~ recognised ""
  /\ update_visualizations Examples.ex_store (Some "India") (Some "")
     = Ok (EmptyFigure, EmptyFigure).
Proof.
  repeat split; try reflexivity; intros [H|[H|H]]; discriminate.
Qed.

(** C6, as the code has it: for a recognised metric and a country with no
    row in that metric's table the callback returns the map and an empty
    time-series figure.  Whether the country is in [country_data] plays no
    part: the result is the same for a country that was never there. *)
Theorem no_rows_gives_empty_figure
    (st : store) (country data : string) :
  country <> "" -> recognised data ->
  frame_empty (select_ts_data st country data) = true ->
  exists m, choropleth_map st data = Ok m
            /\ update_visualizations st (Some country) (Some data)
               = Ok (m, EmptyFigure).
Proof.
  intros Hc Hd He.
  rewrite update_visualizations_nonempty
    by (try assumption; apply recognised_nonempty; assumption).
  destruct (choropleth_map_recognised st data Hd) as [m Hm].
  exists m. split; [exact Hm|]. rewrite Hm. simpl. rewrite He. reflexivity.
Qed.

Lemma no_rows_gives_empty_figure_witness :
  exists m, choropleth_map Examples.ex_store "Deaths" = Ok m
            /\ update_visualizations Examples.ex_store
                 (Some "Atlantis") (Some "Deaths")
               = Ok (m, EmptyFigure).
Proof.
  apply no_rows_gives_empty_figure.
  - discriminate.
  - right. left. reflexivity.
  - reflexivity.
Defined.

(** C6 fails as stated: Atlantis was never in the universe, India is in it
    and has no deaths row; the deaths history of either is the same
    successful result with an empty figure, and neither is an error. *)
Lemma unknown_country_is_not_an_error :
  ~ In "Atlantis" (universe Examples.ex_store)
  /\ In "India" (universe Examples.ex_store)
  /\ update_visualizations Examples.ex_store (Some "Atlantis") (Some "Deaths")
     = Ok (Choropleth ["Australia"; "India"] (NumColumn [Some 1; None])
             "Deaths" "Global Deaths Data",
           EmptyFigure)
  /\ update_visualizations Examples.ex_store (Some "Atlantis") (Some "Deaths")
     = update_visualizations Examples.ex_store (Some "India") (Some "Deaths").
Proof.
  split; [|split; [|split]].
  - simpl. intros [H|[H|[]]]; discriminate.
  - simpl. auto.
  - reflexivity.
  - reflexivity.
Qed.

Lemma map_figure_of_result (st : store) (selected_country selected_data : option string)
    (m t : figure) :
  falsy selected_country = false ->
  update_visualizations st selected_country selected_data = Ok (m, t) ->
  match selected_data with
  | Some data =>
      if falsy selected_data then m = EmptyFigure
      else choropleth_map st data = Ok m
  | None => m = EmptyFigure
  end.
Proof.
  intros Hc H. unfold update_visualizations in H.
  destruct selected_country as [country|]; [|discriminate].
  destruct selected_data as [data|];
    [|simpl in H; injection H as <- _; reflexivity].
  rewrite Hc in H.
  change (false || falsy (Some data)) with (falsy (Some data)) in H.
  destruct (falsy (Some data)); [injection H as <- _; reflexivity|].
  destruct (choropleth_map st data) as [m'|e]; simpl in H; [|discriminate].
  destruct (frame_empty _); [congruence|].
  destruct (px_line _ _ _ _); simpl in H; congruence.
Qed.

(** C10: the map does not depend on the selected country.  For one store
    and one metric selection, whenever the callback returns figures for two
    non-empty country selections the two maps are the same figure; and for
    each of the three metrics of the dropdown it does return, for every
    non-empty country selection, the map [choropleth_map] draws from the
    store and the metric alone. *)
Theorem map_figure_independent_of_country
    (st : store) (country1 country2 selected_data : option string) :
  falsy country1 = false -> falsy country2 = false ->
  (forall m1 t1 m2 t2,
     update_visualizations st country1 selected_data = Ok (m1, t1) ->
     update_visualizations st country2 selected_data = Ok (m2, t2) ->
     m1 = m2)
  /\ (forall data, selected_data = Some data -> recognised data ->
      exists m t1 t2,
        choropleth_map st data = Ok m
        /\ update_visualizations st country1 selected_data = Ok (m, t1)
        /\ update_visualizations st country2 selected_data = Ok (m, t2)).
Proof.
  intros H1 H2. split.
  - intros m1 t1 m2 t2 E1 E2.
    apply (map_figure_of_result _ _ _ _ _ H1) in E1.
    apply (map_figure_of_result _ _ _ _ _ H2) in E2.
    destruct selected_data as [data|]; [|congruence].
    destruct (falsy (Some data)); congruence.
  - intros data -> Hd.
    destruct country1 as [c1|]; [|discriminate].
    destruct country2 as [c2|]; [|discriminate].
    simpl in H1, H2. apply String.eqb_neq in H1, H2.
    pose proof (recognised_nonempty _ Hd) as Hne.
    destruct (choropleth_map_recognised st data Hd) as [m Hm].
    assert (forall c, c <> "" ->
              exists t, update_visualizations st (Some c) (Some data) = Ok (m, t))
      as Hret.
    { intros c Hc. rewrite update_visualizations_nonempty by assumption.
      rewrite Hm. cbn [bind].
      destruct (frame_empty _); [eauto|].
      destruct (px_line_recognised st c data
                  (data ++ " Over Time in " ++ c)%string Hd) as [f Hf].
      rewrite Hf. cbn [bind]. eauto. }
    destruct (Hret c1 H1) as [t1 E1]. destruct (Hret c2 H2) as [t2 E2].
    exists m, t1, t2. auto.
Qed.

Lemma map_figure_independent_of_country_witness :
  exists m t1 t2,
    choropleth_map Examples.ex_store "Deaths" = Ok m
    /\ update_visualizations Examples.ex_store (Some "Australia") (Some "Deaths")
       = Ok (m, t1)
    /\ update_visualizations Examples.ex_store (Some "India") (Some "Deaths")
       = Ok (m, t2).
Proof.
  destruct (map_figure_independent_of_country Examples.ex_store
              (Some "Australia") (Some "India") (Some "Deaths")
              eq_refl eq_refl) as [_ Hret].
  apply (Hret "Deaths" eq_refl). right. left. reflexivity.
Defined.

(** ** Counting the rows of a history *)

Lemma filter_filter_length {A} (P Q : A -> bool) (l : list A) :
  List.length (filter Q (filter P l))
  = List.length (filter (fun x => P x && Q x) l).
Proof.
  induction l as [|x t IH]; simpl; [reflexivity|].
  destruct (P x); simpl; [destruct (Q x); simpl; rewrite IH; reflexivity|].
  exact IH.
Qed.

Lemma Forall2_filter_length {A B} (R : A -> B -> Prop)
    (P : A -> bool) (Q : B -> bool) (l1 : list A) (l2 : list B) :
  (forall a b, R a b -> P a = Q b) ->
  Forall2 R l1 l2 ->
  List.length (filter P l1) = List.length (filter Q l2).
Proof.
  intros HPQ. induction 1 as [|a b l1 l2 Hab _ IH]; simpl; [reflexivity|].
  rewrite (HPQ a b Hab). destruct (Q b); simpl; rewrite IH; reflexivity.
Qed.

Lemma enumerate_labels_from {A} (l : list A) (s : nat) :
  map snd (combine (seq s (List.length l)) l) = l.
Proof.
  revert s; induction l as [|a t IH]; intros s; simpl; [reflexivity|].
  rewrite IH. reflexivity.
Qed.

Lemma enumerate_labels {A} (l : list A) : map snd (enumerate l) = l.
Proof. apply enumerate_labels_from. Qed.

Lemma melt_column_count (to_datetime : string -> option Timestamp)
    (rows : list wide_row) (jl : nat * string) (k : string) (d : Timestamp) :
  List.length
    (filter (fun m => (Country_Region (m_ident m) =? k)
                      && parses_to to_datetime d (m_label m))
            (melt_column rows jl))
  = if parses_to to_datetime d (snd jl)
    then List.length (filter (fun r => Country_Region (ident r) =? k) rows)
    else 0%nat.
Proof.
  unfold melt_column.
  induction rows as [|r t IH]; simpl; [destruct (parses_to _ _ _); reflexivity|].
  destruct (Country_Region (ident r) =? k); simpl.
  - destruct (parses_to to_datetime d (snd jl)); simpl in *; rewrite IH;
      reflexivity.
  - exact IH.
Qed.

Lemma melt_columns_count (to_datetime : string -> option Timestamp)
    (rows : list wide_row) (cols : list (nat * string))
    (k : string) (d : Timestamp) :
  List.length
    (filter (fun m => (Country_Region (m_ident m) =? k)
                      && parses_to to_datetime d (m_label m))
            (flat_map (melt_column rows) cols))
  = (List.length (filter (fun r => String.eqb (Country_Region (ident r)) k) rows)
     * List.length (filter (parses_to to_datetime d) (map snd cols)))%nat.
Proof.
  induction cols as [|jl t IH]; simpl flat_map; simpl map; simpl filter.
  - simpl. lia.
  - rewrite filter_app, length_app, IH, melt_column_count.
    destruct (parses_to to_datetime d (snd jl)); simpl; lia.
Qed.

Lemma load_cases_count (to_datetime : string -> option Timestamp)
    (t : wide_table) (long : list case_row) (k : string) (d : Timestamp) :
  load_cases to_datetime t = Ok long ->
  List.length (filter (fun r => (c_country r =? k) && Z.eqb (c_date r) d) long)
  = (source_rows_of t k * columns_on to_datetime t d)%nat.
Proof.
  intros H. apply parse_dates_Forall2 in H.
  unfold source_rows_of, columns_on.
  rewrite <- (enumerate_labels (date_labels t)) at 1.
  rewrite <- melt_columns_count. symmetry.
  apply (Forall2_filter_length (parsed_from to_datetime)); [|exact H].
  intros m r (Hd & _ & Hc & _). unfold parses_to. rewrite Hd, Hc. reflexivity.
Qed.

(** C3, as the code has it: the long tables keep every melted row.  The
    history of a country in a case metric has, for every date, as many
    records as the source has rows for that country times the number of
    date columns with that date, so a country given in [k] sub-national
    rows has [k] records on each date; the vaccination history has one
    record for every source row of that location and date. *)
Theorem history_keeps_subnational_rows
    (to_datetime : string -> option Timestamp)
    (confirmed_csv deaths_csv : wide_table) (vaccinations_csv : list vacc_raw)
    (st : store) (k : string) (d : Timestamp) :
  build to_datetime confirmed_csv deaths_csv vaccinations_csv = Ok st ->
  frame_records_on (select_ts_data st k "Confirmed Cases") d
  = (source_rows_of confirmed_csv k * columns_on to_datetime confirmed_csv d)%nat
  /\ frame_records_on (select_ts_data st k "Deaths") d
     = (source_rows_of deaths_csv k * columns_on to_datetime deaths_csv d)%nat
  /\ frame_records_on (select_ts_data st k "total_vaccinations") d
     = List.length
         (filter (fun r => (location r =? k)
                           && parses_to to_datetime d (date r))
                 vaccinations_csv).
Proof.
  intros Hb. destruct (build_inv _ _ _ _ _ Hb) as (Hc & Hd & Hv & _).
  unfold select_ts_data. simpl.
  rewrite !filter_filter_length.
  rewrite (load_cases_count _ _ _ k d Hc), (load_cases_count _ _ _ k d Hd).
  split; [reflexivity|]. split; [reflexivity|].
  rewrite Hv. unfold load_vaccinations, parses_to.
  clear. induction vaccinations_csv as [|r t IH]; simpl; [reflexivity|].
  destruct (location r =? k); simpl; [|exact IH].
  destruct (to_datetime (date r)) as [d'|]; [|exact IH].
  destruct (Z.eqb d' d); simpl; rewrite IH; reflexivity.
Qed.

Lemma history_keeps_subnational_rows_witness :
  frame_records_on
    (select_ts_data Examples.two_provinces_store "Australia" "Confirmed Cases")
    1579651200000000000
  = 2%nat.
Proof.
  destruct (history_keeps_subnational_rows Examples.parse_date
              Examples.two_provinces Examples.two_provinces []
              Examples.two_provinces_store "Australia" 1579651200000000000
              eq_refl) as (Hconf & _ & _).
  rewrite Hconf. reflexivity.
Defined.

(** C3 fails as stated: the confirmed history of a country given in two
    sub-national rows holds two records for the one date, 5 and 7. *)
Lemma two_records_for_one_date :
  Examples.two_provinces_build = Ok Examples.two_provinces_store
  /\ select_ts_data Examples.two_provinces_store "Australia" "Confirmed Cases"
     = CaseFrame "Confirmed Cases"
         [ {| c_province := Some "New South Wales"; c_country := "Australia";
              c_lat := "0.0"; c_long := "0.0";
              c_date := 1579651200000000000; c_value := Some 5 |};
           {| c_province := Some "Victoria"; c_country := "Australia";
              c_lat := "0.0"; c_long := "0.0";
              c_date := 1579651200000000000; c_value := Some 7 |} ].
Proof. split; reflexivity. Qed.

(** ** The round trip of melt *)

Lemma option_string_eqb_eq (a b : option string) :
  option_string_eqb a b = true <-> a = b.
Proof.
  destruct a as [x|], b as [y|]; simpl; try (split; congruence).
  rewrite String.eqb_eq. split; congruence.
Qed.

Lemma identity_eqb_eq (a b : identity) : identity_eqb a b = true <-> a = b.
Proof.
  unfold identity_eqb. rewrite !andb_true_iff, !String.eqb_eq,
    option_string_eqb_eq.
  destruct a, b; simpl. split.
  - intros [[[-> ->] ->] ->]. reflexivity.
  - intros E. injection E as -> -> -> ->. auto.
Qed.

Lemma length_enumerate {A} (l : list A) :
  List.length (enumerate l) = List.length l.
Proof.
  unfold enumerate. rewrite length_combine, length_seq. apply Nat.min_id.
Qed.

Lemma length_melt_columns (rows : list wide_row) (cols : list (nat * string)) :
  List.length (flat_map (melt_column rows) cols)
  = (List.length rows * List.length cols)%nat.
Proof.
  induction cols as [|jl t IH]; simpl; [lia|].
  rewrite length_app, IH. unfold melt_column. rewrite length_map. lia.
Qed.

Lemma sumZ_app (l1 l2 : list Z) : sumZ (l1 ++ l2) = sumZ l1 + sumZ l2.
Proof.
  unfold sumZ. induction l1 as [|x t IH]; simpl; [reflexivity|].
  rewrite IH. lia.
Qed.

Lemma sumZ_map_add {A} (f g : A -> Z) (l : list A) :
  sumZ (map (fun x => f x + g x) l) = sumZ (map f l) + sumZ (map g l).
Proof.
  unfold sumZ. induction l as [|x t IH]; simpl; [reflexivity|].
  rewrite IH. lia.
Qed.

Lemma filter_melt_column (rows : list wide_row) (jl : nat * string)
    (id : identity) (lab : string) :
  filter (in_group id lab) (melt_column rows jl)
  = if snd jl =? lab
    then melt_column (filter (fun r => identity_eqb (ident r) id) rows) jl
    else [].
Proof.
  unfold melt_column, in_group.
  induction rows as [|r t IH]; simpl; [destruct (snd jl =? lab); reflexivity|].
  rewrite IH.
  destruct (identity_eqb (ident r) id), (snd jl =? lab); reflexivity.
Qed.

Lemma row_total_cons (jl : nat * string) (cols : list (nat * string))
    (lab : string) (r : wide_row) :
  row_total (jl :: cols) lab r
  = (if snd jl =? lab then cell0 (nth (fst jl) (cells r) None) else 0)
    + row_total cols lab r.
Proof.
  unfold row_total. simpl. destruct (snd jl =? lab); reflexivity.
Qed.

Lemma sumZ_zero {A} (l : list A) : sumZ (map (fun _ => 0) l) = 0.
Proof. induction l as [|x t IH]; [reflexivity | exact IH]. Qed.

Lemma reaggregate_columns (rows : list wide_row) (cols : list (nat * string))
    (id : identity) (lab : string) :
  reaggregate (flat_map (melt_column rows) cols) id lab
  = sumZ (map (row_total cols lab)
              (filter (fun r => identity_eqb (ident r) id) rows)).
Proof.
  unfold reaggregate.
  induction cols as [|jl t IH]; simpl flat_map.
  - symmetry. apply (sumZ_zero (filter _ rows)).
  - rewrite filter_app, map_app, sumZ_app, IH, filter_melt_column.
    rewrite (map_ext _ _ (row_total_cons jl t lab)), sumZ_map_add.
    f_equal. destruct (snd jl =? lab).
    + unfold melt_column. rewrite map_map. reflexivity.
    + symmetry. apply (sumZ_zero (filter _ rows)).
Qed.

Lemma filter_flat_map {A B} (P : B -> bool) (f : A -> list B) (l : list A) :
  filter P (flat_map f l) = flat_map (fun x => filter P (f x)) l.
Proof.
  induction l as [|x t IH]; simpl; [reflexivity|].
  rewrite filter_app, IH. reflexivity.
Qed.

Lemma filter_none {A} (P : A -> bool) (l : list A) :
  (forall y, In y l -> P y = false) -> filter P l = [].
Proof.
  induction l as [|x t IH]; simpl; intros H; [reflexivity|].
  rewrite (H x) by (left; reflexivity). apply IH. intros y Hy. apply H.
  right. exact Hy.
Qed.

(** With distinct keys, selecting by the key of a member selects that
    member alone. *)
Lemma filter_unique_member {A K} (f : A -> K) (eqb : K -> K -> bool)
    (l : list A) (x : A) :
  (forall a b, eqb a b = true <-> a = b) ->
  NoDup (map f l) -> In x l ->
  filter (fun y => eqb (f y) (f x)) l = [x].
Proof.
  intros Heqb. induction l as [|h t IH]; simpl; intros Hnd Hin; [contradiction|].
  inversion Hnd as [|? ? Hnotin Hnd']; subst.
  destruct Hin as [->|Hin].
  - rewrite (proj2 (Heqb (f x) (f x)) eq_refl). f_equal.
    apply filter_none. intros y Hy.
    destruct (eqb (f y) (f x)) eqn:E; [|reflexivity].
    apply Heqb in E. exfalso. apply Hnotin. rewrite <- E.
    apply in_map. exact Hy.
  - destruct (eqb (f h) (f x)) eqn:E.
    + apply Heqb in E. exfalso. apply Hnotin. rewrite E.
      apply in_map. exact Hin.
    + apply IH; assumption.
Qed.

Lemma in_enumerate_from {A} (l : list A) (s j : nat) (a : A) :
  nth_error l j = Some a -> In ((s + j)%nat, a) (combine (seq s (List.length l)) l).
Proof.
  revert s j; induction l as [|h t IH]; intros s [|j] H; simpl in *;
    try discriminate.
  - injection H as ->. left. f_equal. lia.
  - right. replace (s + S j)%nat with (S s + j)%nat by lia. apply IH. exact H.
Qed.

Lemma in_enumerate {A} (l : list A) (j : nat) (a : A) :
  nth_error l j = Some a -> In (j, a) (enumerate l).
Proof. intros H. exact (in_enumerate_from l 0 j a H). Qed.

Lemma flat_map_select {A B} (P : A -> bool) (g : A -> B) (l : list A) :
  flat_map (fun x => if P x then [g x] else []) l = map g (filter P l).
Proof.
  induction l as [|x t IH]; simpl; [reflexivity|].
  rewrite IH. destruct (P x); reflexivity.
Qed.

(** C9: [melt] turns a wide table of N rows and D date columns into N x D
    long rows; for every identity and date label the values of the long
    rows of that group add up to the cells the wide table holds for that
    identity under that label; and when the identities and the labels are
    distinct the group of row [i] and column [j] is the one long row that
    carries the cell of row [i] in column [j].  Parsing the dates, when it
    succeeds, keeps the number of rows and their values. *)
Theorem melt_round_trip (t : wide_table) :
  List.length (melt t)
  = (List.length (wide_rows t) * List.length (date_labels t))%nat
  /\ (forall id lab, reaggregate (melt t) id lab = wide_total t id lab)
  /\ (NoDup (map ident (wide_rows t)) -> NoDup (date_labels t) ->
      forall i j r lab,
        nth_error (wide_rows t) i = Some r ->
        nth_error (date_labels t) j = Some lab ->
        filter (in_group (ident r) lab) (melt t)
        = [ {| m_ident := ident r; m_label := lab;
               m_value := nth j (cells r) None |} ])
  /\ (forall to_datetime long,
        load_cases to_datetime t = Ok long ->
        List.length long
        = (List.length (wide_rows t) * List.length (date_labels t))%nat
        /\ map c_value long = map m_value (melt t)).
Proof.
  assert (List.length (melt t)
          = (List.length (wide_rows t) * List.length (date_labels t))%nat)
    as Hlen.
  { unfold melt. rewrite length_melt_columns, length_enumerate. reflexivity. }
  split; [exact Hlen|].
  split; [|split].
  - intros id lab. apply reaggregate_columns.
  - intros Hrows Hlabs i j r lab Hr Hlab.
    unfold melt. rewrite filter_flat_map.
    assert (filter (fun r' => identity_eqb (ident r') (ident r)) (wide_rows t)
            = [r]) as Hone.
    { apply (filter_unique_member ident identity_eqb).
      - exact identity_eqb_eq.
      - exact Hrows.
      - eapply nth_error_In; exact Hr. }
    assert (filter (fun jl => snd jl =? lab) (enumerate (date_labels t))
            = [(j, lab)]) as Hcol.
    { apply (filter_unique_member snd String.eqb _ (j, lab)).
      - exact String.eqb_eq.
      - rewrite enumerate_labels. exact Hlabs.
      - apply in_enumerate. exact Hlab. }
    rewrite (flat_map_ext _
               (fun jl => if snd jl =? lab
                          then [ {| m_ident := ident r; m_label := snd jl;
                                    m_value := nth (fst jl) (cells r) None |} ]
                          else [])).
    + rewrite flat_map_select, Hcol. reflexivity.
    + intros jl. rewrite filter_melt_column, Hone. reflexivity.
  - intros p long Hl. apply parse_dates_Forall2 in Hl. split.
    + rewrite <- Hlen. symmetry. eapply Forall2_length. exact Hl.
    + symmetry. apply (Forall2_map_eq (parsed_from p)); [|exact Hl].
      intros a b Hab. symmetry. apply Hab.
Qed.

Lemma melt_round_trip_witness :
  filter (in_group (ident (Examples.row (Some "Victoria") "Australia" [7; 9]))
            "1/23/20")
         (melt Examples.ex_confirmed)
  = [ {| m_ident := ident (Examples.row (Some "Victoria") "Australia" [7; 9]);
         m_label := "1/23/20"; m_value := Some 9 |} ].
Proof.
  destruct (melt_round_trip Examples.ex_confirmed) as (_ & _ & Hcell & _).
  apply (Hcell ltac:(repeat constructor; simpl; intuition discriminate)
               ltac:(repeat constructor; simpl; intuition discriminate)
               1%nat 1%nat); reflexivity.
Defined.

(** * Further properties of the pipeline and the callback *)

(** ** The order of the melted rows *)

Lemma length_melt_column (rows : list wide_row) (jl : nat * string) :
  List.length (melt_column rows jl) = List.length rows.
Proof. unfold melt_column. apply length_map. Qed.

Lemma nth_error_melt_columns (rows : list wide_row) (labels : list string)
    (s i j : nat) (r : wide_row) (lab : string) :
  nth_error rows i = Some r ->
  nth_error labels j = Some lab ->
  nth_error
    (flat_map (melt_column rows) (combine (seq s (List.length labels)) labels))
    (j * List.length rows + i)
  = Some {| m_ident := ident r; m_label := lab;
            m_value := nth (s + j) (cells r) None |}.
Proof.
  intros Hr. revert s j.
  induction labels as [|l t IH]; intros s [|j] Hl; simpl in Hl;
    try discriminate.
  - injection Hl as ->. cbn [List.length seq combine flat_map].
    rewrite nth_error_app1.
    + unfold melt_column. simpl. rewrite nth_error_map, Hr. simpl.
      rewrite Nat.add_0_r. reflexivity.
    + rewrite length_melt_column. simpl.
      apply nth_error_Some. congruence.
  - cbn [List.length seq combine flat_map].
    rewrite nth_error_app2.
    + rewrite length_melt_column.
      replace (S j * List.length rows + i - List.length rows)%nat
        with (j * List.length rows + i)%nat by lia.
      rewrite (IH (S s) j Hl). do 3 f_equal. lia.
    + rewrite length_melt_column. lia.
Qed.

(** X3: [melt] lays the long rows out date column by date column.  In a
    table of N rows the cell of row [i] under the [j]-th date header is the
    long row at position [j * N + i], with the identity of row [i] and the
    header of column [j]. *)
Theorem melt_is_column_major (t : wide_table) (i j : nat)
    (r : wide_row) (lab : string) :
  nth_error (wide_rows t) i = Some r ->
  nth_error (date_labels t) j = Some lab ->
  nth_error (melt t) (j * List.length (wide_rows t) + i)
  = Some {| m_ident := ident r; m_label := lab;
            m_value := nth j (cells r) None |}.
Proof.
  intros Hr Hl. unfold melt, enumerate.
  exact (nth_error_melt_columns (wide_rows t) (date_labels t) 0 i j r lab Hr Hl).
Qed.

Lemma melt_is_column_major_witness :
  nth_error (melt Examples.ex_confirmed) (1 * 3 + 1)
  = Some {| m_ident := ident (Examples.row (Some "Victoria") "Australia" [7; 9]);
            m_label := "1/23/20"; m_value := Some 9 |}.
Proof.
  apply (melt_is_column_major Examples.ex_confirmed 1 1); reflexivity.
Defined.

(** ** Histories in date order *)

Lemma StronglySorted_app {A} (R : A -> A -> Prop) (l1 l2 : list A) :
  StronglySorted R l1 -> StronglySorted R l2 ->
  (forall a b, In a l1 -> In b l2 -> R a b) ->
  StronglySorted R (l1 ++ l2).
Proof.
  intros H1 H2 H12. induction H1 as [|a l1 Hl1 IH Ha]; simpl; [exact H2|].
  constructor.
  - apply IH. intros x y Hx Hy. apply H12; [right; exact Hx | exact Hy].
  - apply Forall_app. split; [exact Ha|].
    apply Forall_forall. intros y Hy. apply H12; [left; reflexivity | exact Hy].
Qed.

Lemma StronglySorted_filter {A} (R : A -> A -> Prop) (P : A -> bool)
    (l : list A) :
  StronglySorted R l -> StronglySorted R (filter P l).
Proof.
  induction 1 as [|a l Hl IH Ha]; simpl; [constructor|].
  destruct (P a); [|exact IH]. constructor; [exact IH|].
  apply Forall_forall. intros y Hy. apply filter_In in Hy.
  rewrite Forall_forall in Ha. apply Ha. apply Hy.
Qed.

Lemma StronglySorted_Forall2 {A B} (R : A -> B -> Prop)
    (S1 : A -> A -> Prop) (S2 : B -> B -> Prop) (l1 : list A) (l2 : list B) :
  (forall a a' b b', R a a' -> R b b' -> S1 a b -> S2 a' b') ->
  Forall2 R l1 l2 -> StronglySorted S1 l1 -> StronglySorted S2 l2.
Proof.
  intros Htr H. induction H as [|a a' l1 l2 Ha Hl IH]; intros Hs;
    [constructor|].
  inversion Hs as [|? ? Hs' Hall]; subst.
  constructor; [apply IH; exact Hs'|].
  clear IH Hs Hs'. induction Hl as [|b b' l1 l2 Hb Hl IHl]; [constructor|].
  inversion Hall; subst. constructor; [|apply IHl; assumption].
  eapply Htr; eauto.
Qed.

Lemma StronglySorted_map {A B} (f : A -> B) (R : B -> B -> Prop) (l : list A) :
  StronglySorted (fun a b => R (f a) (f b)) l -> StronglySorted R (map f l).
Proof.
  induction 1 as [|a l Hl IH Ha]; simpl; constructor; [exact IH|].
  apply Forall_map. exact Ha.
Qed.

Lemma label_le_refl (to_datetime : string -> option Timestamp) (a : string) :
  label_le to_datetime a a.
Proof. intros da db Ha Hb. rewrite Ha in Hb. injection Hb as <-. lia. Qed.

Lemma melt_columns_sorted (to_datetime : string -> option Timestamp)
    (rows : list wide_row) (cols : list (nat * string)) :
  StronglySorted (label_le to_datetime) (map snd cols) ->
  StronglySorted (fun a b => label_le to_datetime (m_label a) (m_label b))
    (flat_map (melt_column rows) cols).
Proof.
  induction cols as [|jl t IH]; simpl; intros Hs; [constructor|].
  inversion Hs as [|? ? Hs' Hall]; subst.
  apply StronglySorted_app.
  - unfold melt_column. clear.
    induction rows as [|r rest IHr]; simpl; constructor; [exact IHr|].
    apply Forall_forall. intros m Hm. apply in_map_iff in Hm.
    destruct Hm as (r' & <- & _). simpl. apply label_le_refl.
  - apply IH. exact Hs'.
  - intros a b Ha Hb. unfold melt_column in Ha. apply in_map_iff in Ha.
    destruct Ha as (r & <- & _). simpl.
    apply in_flat_map in Hb. destruct Hb as (jl' & Hjl' & Hb).
    unfold melt_column in Hb. apply in_map_iff in Hb.
    destruct Hb as (r' & <- & _). simpl.
    rewrite Forall_forall in Hall. apply Hall. apply in_map. exact Hjl'.
Qed.

Lemma load_cases_sorted (to_datetime : string -> option Timestamp)
    (t : wide_table) (long : list case_row) :
  StronglySorted (label_le to_datetime) (date_labels t) ->
  load_cases to_datetime t = Ok long ->
  StronglySorted (fun a b => c_date a <= c_date b) long.
Proof.
  intros Hs Hl. apply parse_dates_Forall2 in Hl.
  apply (StronglySorted_Forall2 (parsed_from to_datetime)
           (fun a b => label_le to_datetime (m_label a) (m_label b))
           _ (melt t) long); [|exact Hl|].
  - intros a a' b b' (Ha & _) (Hb & _) Hab. exact (Hab _ _ Ha Hb).
  - unfold melt. apply melt_columns_sorted. rewrite enumerate_labels. exact Hs.
Qed.

(** X4: when the date headers of a case source stand in ascending order of
    their dates, the history the callback selects for a country in that
    metric is in ascending date order: the dates of the selected rows never
    decrease, so the line is drawn from the earliest date to the latest. *)
Theorem case_history_in_date_order
    (to_datetime : string -> option Timestamp)
    (confirmed_csv deaths_csv : wide_table) (vaccinations_csv : list vacc_raw)
    (st : store) (country : string) :
  build to_datetime confirmed_csv deaths_csv vaccinations_csv = Ok st ->
  (StronglySorted (label_le to_datetime) (date_labels confirmed_csv) ->
   exists rows,
     select_ts_data st country "Confirmed Cases" = CaseFrame "Confirmed Cases" rows
     /\ StronglySorted Z.le (map c_date rows))
  /\ (StronglySorted (label_le to_datetime) (date_labels deaths_csv) ->
      exists rows,
        select_ts_data st country "Deaths" = CaseFrame "Deaths" rows
        /\ StronglySorted Z.le (map c_date rows)).
Proof.
  intros Hb. destruct (build_inv _ _ _ _ _ Hb) as (Hc & Hd & _ & _).
  split; intros Hs; eexists; (split; [reflexivity|]);
    apply StronglySorted_map, StronglySorted_filter;
    eapply load_cases_sorted; eauto.
Qed.

Lemma case_history_in_date_order_witness :
  exists rows,
    select_ts_data Examples.ex_store "Australia" "Confirmed Cases"
    = CaseFrame "Confirmed Cases" rows
    /\ StronglySorted Z.le (map c_date rows).
Proof.
  destruct (case_history_in_date_order Examples.parse_date
              Examples.ex_confirmed Examples.ex_deaths Examples.ex_vaccinations
              Examples.ex_store "Australia" eq_refl) as [Hconf _].
  apply Hconf. simpl.
  repeat constructor; intros da db Ha Hb; vm_compute in Ha, Hb;
    injection Ha as <-; injection Hb as <-; lia.
Defined.

(** ** The rows of the snapshot table *)

(** X5: the rows of [country_data] stand in strictly ascending order of
    their country string, compared character by character; the sorted keys
    of the confirmed summary survive both left merges in that order. *)
Theorem country_data_in_key_order
    (to_datetime : string -> option Timestamp)
    (confirmed_csv deaths_csv : wide_table) (vaccinations_csv : list vacc_raw)
    (st : store) :
  build to_datetime confirmed_csv deaths_csv vaccinations_csv = Ok st ->
  StronglySorted slt (map Country (country_data st)).
Proof.
  intros Hb. destruct (build_inv _ _ _ _ _ Hb) as (_ & _ & _ & Hcd).
  rewrite Hcd, merge_country_data_rows, map_map. simpl. rewrite map_id.
  apply group_keys_sorted.
Qed.

Lemma country_data_in_key_order_witness :
  StronglySorted slt (map Country (country_data Examples.ex_store)).
Proof.
  apply (country_data_in_key_order Examples.parse_date
           Examples.ex_confirmed Examples.ex_deaths Examples.ex_vaccinations).
  reflexivity.
Defined.

(** X6: the vaccination value of a [country_data] row is never NaN.  It is
    the largest [total_vaccinations] among the source rows of exactly that
    location, whether or not their date parsed, and it is 0 when the
    location has no row with a value. *)
Theorem vaccination_snapshot_is_max_or_zero
    (to_datetime : string -> option Timestamp)
    (confirmed_csv deaths_csv : wide_table) (vaccinations_csv : list vacc_raw)
    (st : store) (r : country_row) :
  build to_datetime confirmed_csv deaths_csv vaccinations_csv = Ok st ->
  In r (country_data st) ->
  exists v,
    total_vaccinations r = Some v
    /\ ((exists x, In x vaccinations_csv /\ location x = Country r
                   /\ raw_total_vaccinations x = Some v)
        \/ (v = 0 /\ forall x, In x vaccinations_csv ->
                               location x = Country r ->
                               raw_total_vaccinations x = None))
    /\ (forall x w, In x vaccinations_csv -> location x = Country r ->
                    raw_total_vaccinations x = Some w -> w <= v).
Proof.
  intros Hb Hr. destruct (build_inv _ _ _ _ _ Hb) as (_ & _ & Hv & Hcd).
  rewrite Hcd in Hr. apply in_country_data in Hr. destruct Hr as [_ Hr].
  assert (forall c, In c (group_values v_country v_total
                            (vaccination_data st) (Country r))
                    <-> exists x, In x vaccinations_csv
                                  /\ location x = Country r
                                  /\ raw_total_vaccinations x = c) as Hin.
  { intros c. rewrite Hv, load_vaccinations_group, in_map_iff. split.
    - intros (x & <- & Hx). apply filter_In in Hx. destruct Hx as [Hx Hk].
      apply String.eqb_eq in Hk. eauto.
    - intros (x & Hx & Hk & <-). exists x. split; [reflexivity|].
      apply filter_In. split; [exact Hx | apply String.eqb_eq; exact Hk]. }
  assert (total_vaccinations r
          = fillna0 (max_skipna (group_values v_country v_total
                                   (vaccination_data st) (Country r)))) as Htv
    by (rewrite Hr at 1; reflexivity).
  rewrite Htv.
  destruct (max_skipna _) as [m|] eqn:E; simpl.
  - exists m. apply max_skipna_Some in E. destruct E as [Em Emax].
    split; [reflexivity|]. split.
    + left. apply Hin. exact Em.
    + intros x w Hx Hk Hw. apply Emax. apply Hin. eauto.
  - exists 0. split; [reflexivity|].
    assert (forall x, In x vaccinations_csv -> location x = Country r ->
                      raw_total_vaccinations x = None) as Hnone.
    { intros x Hx Hk. apply (max_skipna_None _ E). apply Hin. eauto. }
    split; [right; auto|].
    intros x w Hx Hk Hw. rewrite (Hnone x Hx Hk) in Hw. discriminate.
Qed.

Lemma vaccination_snapshot_is_max_or_zero_witness :
  exists v,
    Some 50 = Some v
    /\ ((exists x, In x Examples.ex_vaccinations /\ location x = "Australia"
                   /\ raw_total_vaccinations x = Some v)
        \/ (v = 0 /\ forall x, In x Examples.ex_vaccinations ->
                               location x = "Australia" ->
                               raw_total_vaccinations x = None))
    /\ (forall x w, In x Examples.ex_vaccinations -> location x = "Australia" ->
                    raw_total_vaccinations x = Some w -> w <= v).
Proof.
  apply (vaccination_snapshot_is_max_or_zero Examples.parse_date
           Examples.ex_confirmed Examples.ex_deaths Examples.ex_vaccinations
           Examples.ex_store
           {| Country := "Australia"; Confirmed_Cases := Some 9;
              Deaths := Some 1; total_vaccinations := Some 50 |}).
  - reflexivity.
  - simpl. left. reflexivity.
Defined.

(** X7: the deaths value of a [country_data] row is NaN exactly when the
    deaths table has no row of that country with a value; in particular a
    country of the confirmed source without any deaths row has NaN there,
    for the merge result is not filled. *)
Theorem deaths_snapshot_nan_iff
    (to_datetime : string -> option Timestamp)
    (confirmed_csv deaths_csv : wide_table) (vaccinations_csv : list vacc_raw)
    (st : store) (r : country_row) :
  build to_datetime confirmed_csv deaths_csv vaccinations_csv = Ok st ->
  In r (country_data st) ->
  (Deaths r = None <->
   forall x, In x (deaths_data st) -> c_country x = Country r ->
             c_value x = None)
  /\ (~ In (Country r) (map c_country (deaths_data st)) -> Deaths r = None).
Proof.
  intros Hb Hr. destruct (build_inv _ _ _ _ _ Hb) as (_ & _ & _ & Hcd).
  rewrite Hcd in Hr.
  pose proof (country_data_deaths_absent _ _ _ _ Hr) as Habs.
  apply in_country_data in Hr. destruct Hr as [_ Hr].
  pose proof (group_max_is_country_max (deaths_data st) (Country r)) as Hmax.
  assert (Deaths r = max_skipna (group_values c_country c_value
                                   (deaths_data st) (Country r))) as Hd
    by (rewrite Hr at 1; reflexivity).
  rewrite <- Hd in Hmax. unfold is_country_max in Hmax.
  split; [|exact Habs]. split.
  - intros E. rewrite E in Hmax. exact Hmax.
  - intros Hall. destruct (Deaths r) as [m|]; [|reflexivity].
    destruct Hmax as [(x & Hx & Hk & Hv) _].
    rewrite (Hall x Hx Hk) in Hv. discriminate.
Qed.

Lemma deaths_snapshot_nan_iff_witness :
  ((None : cell) = None <->
   forall x, In x (deaths_data Examples.ex_store) -> c_country x = "India" ->
             c_value x = None)
  /\ (~ In "India" (map c_country (deaths_data Examples.ex_store)) ->
      (None : cell) = None).
Proof.
  apply (deaths_snapshot_nan_iff Examples.parse_date
           Examples.ex_confirmed Examples.ex_deaths Examples.ex_vaccinations
           Examples.ex_store
           {| Country := "India"; Confirmed_Cases := Some 2;
              Deaths := None; total_vaccinations := Some 0 |}).
  - reflexivity.
  - simpl. right. left. reflexivity.
Defined.

(** ** The country dropdown and the histories behind it *)

Lemma filter_all {A} (P : A -> bool) (l : list A) :
  (forall y, In y l -> P y = true) -> filter P l = l.
Proof.
  induction l as [|x t IH]; simpl; intros H; [reflexivity|].
  rewrite (H x) by (left; reflexivity). f_equal. apply IH.
  intros y Hy. apply H. right. exact Hy.
Qed.

Lemma unique_NoDup (l : list string) : NoDup l -> unique l = l.
Proof.
  induction 1 as [|x t Hx Ht IH]; simpl; [reflexivity|].
  rewrite IH. f_equal. apply filter_all. intros y Hy.
  apply negb_true_iff, String.eqb_neq. intros ->. contradiction.
Qed.

Lemma filter_key_nonempty {R} (key : R -> string) (rows : list R) (k : string) :
  filter (fun r => key r =? k) rows <> [] <-> In k (map key rows).
Proof.
  induction rows as [|r t IH]; simpl; [tauto|].
  destruct (String.eqb_spec (key r) k) as [E|E].
  - split; [auto | discriminate].
  - rewrite IH. split; [auto|]. intros [H|H]; [contradiction | exact H].
Qed.

Lemma case_frame_empty_false (name : string) (rows : list case_row) :
  frame_empty (CaseFrame name rows) = false <-> rows <> [].
Proof. destruct rows; simpl; split; congruence. Qed.

Lemma select_confirmed (st : store) (country : string) :
  select_ts_data st country "Confirmed Cases"
  = CaseFrame "Confirmed Cases"
      (filter (fun r => c_country r =? country) (confirmed_data st)).
Proof. reflexivity. Qed.

(** X8: the options of the country dropdown are the countries of
    [country_data], each once and in that order, and they are exactly the
    countries with a confirmed-cases history: for every option other than
    the empty string the callback draws, for the confirmed metric, a line
    over the dates and values of that country's rows, and for any other
    country its confirmed history is empty. *)
Theorem country_options_have_history
    (to_datetime : string -> option Timestamp)
    (confirmed_csv deaths_csv : wide_table) (vaccinations_csv : list vacc_raw)
    (st : store) :
  build to_datetime confirmed_csv deaths_csv vaccinations_csv = Ok st ->
  map snd (options (country_dropdown st)) = universe st
  /\ map fst (options (country_dropdown st)) = universe st
  /\ (forall country,
        In country (map snd (options (country_dropdown st)))
        <-> frame_empty (select_ts_data st country "Confirmed Cases") = false)
  /\ (forall country,
        In country (map snd (options (country_dropdown st))) ->
        country <> "" ->
        exists m rows,
          rows = filter (fun r => c_country r =? country) (confirmed_data st)
          /\ rows <> []
          /\ update_visualizations st (Some country) (Some "Confirmed Cases")
             = Ok (m, LineFigure
                        (DateColumn (map (fun r => Some (c_date r)) rows))
                        (NumColumn (map c_value rows))
                        ("Confirmed Cases Over Time in " ++ country)%string)).
Proof.
  intros Hb. destruct (build_inv _ _ _ _ _ Hb) as (_ & _ & _ & Hcd).
  assert (universe st = group_keys (map c_country (confirmed_data st))) as Hu.
  { unfold universe. rewrite Hcd, merge_country_data_rows, map_map.
    simpl. apply map_id. }
  assert (unique (map Country (country_data st)) = universe st) as Hopt.
  { apply unique_NoDup. fold (universe st). rewrite Hu.
    apply group_keys_NoDup. }
  assert (forall country,
            In country (universe st)
            <-> frame_empty (select_ts_data st country "Confirmed Cases") = false)
    as Hhist.
  { intros country. rewrite Hu, group_keys_In, select_confirmed.
    rewrite case_frame_empty_false. symmetry. apply filter_key_nonempty. }
  assert (map snd (options (country_dropdown st)) = universe st) as Hsnd.
  { unfold country_dropdown. cbn [options]. rewrite map_map. cbn [snd].
    rewrite map_id. exact Hopt. }
  assert (map fst (options (country_dropdown st)) = universe st) as Hfst.
  { unfold country_dropdown. cbn [options]. rewrite map_map. cbn [fst].
    rewrite map_id. exact Hopt. }
  rewrite Hsnd.
  split; [reflexivity|]. split; [exact Hfst|]. split; [exact Hhist|].
  intros country Hin Hne. apply Hhist in Hin.
  rewrite update_visualizations_nonempty by (try assumption; discriminate).
  destruct (choropleth_map_recognised st "Confirmed Cases") as [m Hm];
    [left; reflexivity|].
  rewrite Hm. cbn [bind]. rewrite Hin.
  exists m. eexists. split; [reflexivity|]. split.
  - rewrite select_confirmed in Hin.
    apply case_frame_empty_false in Hin. exact Hin.
  - reflexivity.
Qed.

Lemma country_options_have_history_witness :
  map snd (options (country_dropdown Examples.ex_store)) = ["Australia"; "India"]
  /\ frame_empty (select_ts_data Examples.ex_store "Gibraltar" "Confirmed Cases")
     <> false.
Proof.
  destruct (country_options_have_history Examples.parse_date
              Examples.ex_confirmed Examples.ex_deaths Examples.ex_vaccinations
              Examples.ex_store eq_refl) as (Hopt & _ & Hhist & _).
  split.
  - rewrite Hopt. reflexivity.
  - intros H. apply Hhist in H. rewrite Hopt in H. simpl in H.
    destruct H as [H|[H|[]]]; discriminate.
Defined.

(** ** When the callback raises *)

(** X9: the callback raises in two cases only, both with a country and a
    metric that are not empty: the metric is not a column of
    [country_data], which is the [KeyError] of that name; or the metric is
    the column name [Country] and the deaths table has a row of the
    selected country, which is the [ValueError] of [px.line] on the deaths
    slice.  In every other case it returns two figures. *)
Theorem update_visualizations_raises_iff
    (st : store) (selected_country selected_data : option string) (e : exn) :
  update_visualizations st selected_country selected_data = Raise e
  <-> exists country data,
        selected_country = Some country /\ selected_data = Some data
        /\ country <> "" /\ data <> ""
        /\ ((~ In data country_data_columns /\ e = KeyError data)
            \/ (data = "Country"
                /\ In country (map c_country (deaths_data st))
                /\ e = ValueError "Country")).
Proof.
  split.
  - intros H.
    destruct selected_country as [country|]; [|discriminate].
    destruct selected_data as [data|]; [|discriminate].
    destruct (String.eqb_spec country "") as [->|Hc]; [discriminate|].
    destruct (String.eqb_spec data "") as [->|Hd];
      [destruct country; discriminate|].
    exists country, data. do 4 (split; [auto|]).
    rewrite update_visualizations_nonempty in H by assumption.
    unfold choropleth_map, country_data_column in H.
    destruct (String.eqb_spec data "Country") as [->|E1].
    + right. cbn [bind] in H. unfold select_ts_data in H. simpl in H.
      destruct (filter _ (deaths_data st)) as [|r rows] eqn:F;
        [discriminate|].
      simpl in H. injection H as <-.
      split; [reflexivity|]. split; [|reflexivity].
      apply (filter_key_nonempty c_country). rewrite F. discriminate.
    + destruct (String.eqb_spec data "Confirmed Cases") as [->|E2].
      { exfalso. cbn [bind] in H. unfold select_ts_data in H. simpl in H.
        destruct (filter _ (confirmed_data st)); discriminate. }
      destruct (String.eqb_spec data "Deaths") as [->|E3].
      { exfalso. cbn [bind] in H. unfold select_ts_data in H. simpl in H.
        destruct (filter _ (deaths_data st)); discriminate. }
      destruct (String.eqb_spec data "total_vaccinations") as [->|E4].
      { exfalso. cbn [bind] in H. unfold select_ts_data in H. simpl in H.
        destruct (filter _ (vaccination_data st)); discriminate. }
      left. simpl in H. injection H as <-. split; [|reflexivity].
      simpl. intros [X|[X|[X|[X|[]]]]]; congruence.
  - intros (country & data & -> & -> & Hc & Hd & [[Hcol ->]|(-> & Hin & ->)]).
    + rewrite update_visualizations_nonempty by assumption.
      unfold choropleth_map, country_data_column.
      destruct (String.eqb_spec data "Country") as [E|_];
        [exfalso; apply Hcol; rewrite E; simpl; tauto|].
      destruct (String.eqb_spec data "Confirmed Cases") as [E|_];
        [exfalso; apply Hcol; rewrite E; simpl; tauto|].
      destruct (String.eqb_spec data "Deaths") as [E|_];
        [exfalso; apply Hcol; rewrite E; simpl; tauto|].
      destruct (String.eqb_spec data "total_vaccinations") as [E|_];
        [exfalso; apply Hcol; rewrite E; simpl; tauto|].
      reflexivity.
    + rewrite update_visualizations_nonempty by assumption.
      apply (filter_key_nonempty c_country) in Hin.
      unfold choropleth_map, select_ts_data. simpl.
      destruct (filter _ (deaths_data st)) as [|r rows]; [congruence|].
      reflexivity.
Qed.

Lemma update_visualizations_raises_iff_witness :
  update_visualizations Examples.ex_store (Some "Australia") (Some "Country")
  = Raise (ValueError "Country").
Proof.
  apply (proj2 (update_visualizations_raises_iff Examples.ex_store
                  (Some "Australia") (Some "Country") (ValueError "Country"))).
  exists "Australia", "Country".
  repeat split; try discriminate.
  right. repeat split. simpl. left. reflexivity.
Defined.

(** ** The vaccination history *)

Lemma filter_load_vaccinations (to_datetime : string -> option Timestamp)
    (raw : list vacc_raw) (k : string) :
  filter (fun r => v_country r =? k) (load_vaccinations to_datetime raw)
  = load_vaccinations to_datetime (filter (fun x => location x =? k) raw).
Proof.
  unfold load_vaccinations.
  induction raw as [|x t IH]; simpl; [reflexivity|].
  destruct (location x =? k); simpl; rewrite IH; reflexivity.
Qed.

(** X10: for the vaccination metric the callback draws the source rows of
    exactly the selected location, in source order: the line has one point
    per such row, its date parsed or missing and its value as given; when
    the location has no row the time-series figure is empty. *)
Theorem vaccination_history_lists_source_rows
    (to_datetime : string -> option Timestamp)
    (confirmed_csv deaths_csv : wide_table) (vaccinations_csv : list vacc_raw)
    (st : store) (country : string) :
  build to_datetime confirmed_csv deaths_csv vaccinations_csv = Ok st ->
  country <> "" ->
  exists m,
    choropleth_map st "total_vaccinations" = Ok m
    /\ update_visualizations st (Some country) (Some "total_vaccinations")
       = Ok (m,
             match filter (fun x => location x =? country) vaccinations_csv with
             | [] => EmptyFigure
             | rows =>
                 LineFigure
                   (DateColumn (map (fun x => to_datetime (date x)) rows))
                   (NumColumn (map raw_total_vaccinations rows))
                   ("total_vaccinations Over Time in " ++ country)%string
             end).
Proof.
  intros Hb Hc. destruct (build_inv _ _ _ _ _ Hb) as (_ & _ & Hv & _).
  rewrite update_visualizations_nonempty by (try assumption; discriminate).
  destruct (choropleth_map_recognised st "total_vaccinations") as [m Hm];
    [right; right; reflexivity|].
  exists m. split; [exact Hm|]. rewrite Hm. cbn [bind].
  assert (select_ts_data st country "total_vaccinations"
          = VaccFrame (load_vaccinations to_datetime
                         (filter (fun x => location x =? country)
                                 vaccinations_csv))) as Hsel.
  { unfold select_ts_data. simpl. rewrite Hv, filter_load_vaccinations.
    reflexivity. }
  rewrite Hsel.
  destruct (filter _ vaccinations_csv) as [|x rows]; [reflexivity|].
  unfold load_vaccinations, px_line. simpl. rewrite !map_map. reflexivity.
Qed.

Lemma vaccination_history_lists_source_rows_witness :
  exists m,
    choropleth_map Examples.ex_store "total_vaccinations" = Ok m
    /\ update_visualizations Examples.ex_store
         (Some "Australia") (Some "total_vaccinations")
       = Ok (m, LineFigure (DateColumn [None]) (NumColumn [Some 50])
                  "total_vaccinations Over Time in Australia").
Proof.
  apply (vaccination_history_lists_source_rows Examples.parse_date
           Examples.ex_confirmed Examples.ex_deaths Examples.ex_vaccinations
           Examples.ex_store "Australia").
  - reflexivity.
  - discriminate.
Defined.

(** ** The snapshot table and the order of the source rows *)

Lemma max_cell_swap (a b acc : cell) :
  max_cell a (max_cell b acc) = max_cell b (max_cell a acc).
Proof.
  destruct a as [a|], b as [b|], acc as [c|]; simpl; try reflexivity;
    f_equal; lia.
Qed.

Lemma max_skipna_Permutation (l l' : list cell) :
  Permutation l l' -> max_skipna l = max_skipna l'.
Proof.
  unfold max_skipna.
  induction 1 as [|x l l' _ IH|x y l|l l' l'' _ IH1 _ IH2]; simpl.
  - reflexivity.
  - rewrite IH. reflexivity.
  - apply max_cell_swap.
  - rewrite IH1. exact IH2.
Qed.

Lemma group_values_Permutation {R} (key : R -> string) (val : R -> cell)
    (rows rows' : list R) (k : string) :
  Permutation rows rows' ->
  Permutation (group_values key val rows k) (group_values key val rows' k).
Proof.
  unfold group_values.
  induction 1 as [|x l l' _ IH|x y l|l l' l'' _ IH1 _ IH2]; simpl.
  - constructor.
  - destruct (key x =? k); simpl; [constructor|]; exact IH.
  - destruct (key x =? k), (key y =? k); simpl;
      try apply Permutation_refl. apply perm_swap.
  - eapply Permutation_trans; eassumption.
Qed.

Lemma sorted_same_members (l1 l2 : list string) :
  StronglySorted slt l1 -> StronglySorted slt l2 ->
  (forall x, In x l1 <-> In x l2) -> l1 = l2.
Proof.
  intros H1. revert l2.
  induction H1 as [|a t1 Ht1 IH Ha]; intros l2 H2 Hmem.
  - destruct l2 as [|b t2]; [reflexivity|].
    exfalso. apply (proj2 (Hmem b)). left. reflexivity.
  - destruct H2 as [|b t2 Ht2 Hb].
    + exfalso. apply (proj1 (Hmem a)). left. reflexivity.
    + rewrite Forall_forall in Ha, Hb.
      assert (a = b) as ->.
      { destruct (proj1 (Hmem a) (or_introl eq_refl)) as [E|Hin]; [auto|].
        destruct (proj2 (Hmem b) (or_introl eq_refl)) as [E|Hin']; [auto|].
        exfalso. apply (slt_irrefl a).
        exact (slt_trans _ _ _ (Ha _ Hin') (Hb _ Hin)). }
      f_equal. apply IH; [exact Ht2|].
      intros x. split; intros Hx.
      * destruct (proj1 (Hmem x) (or_intror Hx)) as [E|Hin]; [|exact Hin].
        exfalso. subst x. exact (slt_irrefl _ (Ha _ Hx)).
      * destruct (proj2 (Hmem x) (or_intror Hx)) as [E|Hin]; [|exact Hin].
        exfalso. subst x. exact (slt_irrefl _ (Hb _ Hx)).
Qed.

Lemma group_keys_Permutation (l l' : list string) :
  Permutation l l' -> group_keys l = group_keys l'.
Proof.
  intros H. apply sorted_same_members; try apply group_keys_sorted.
  intros x. rewrite !group_keys_In. split; apply Permutation_in;
    [exact H | apply Permutation_sym; exact H].
Qed.

(** X11: [country_data] does not depend on the order of the rows of the
    three long tables: tables holding the same rows in another order give
    the same snapshot table, row for row. *)
Theorem country_data_ignores_row_order
    (confirmed confirmed' deaths deaths' : list case_row)
    (vacc vacc' : list vacc_row) :
  Permutation confirmed confirmed' ->
  Permutation deaths deaths' ->
  Permutation vacc vacc' ->
  merge_country_data confirmed deaths vacc
  = merge_country_data confirmed' deaths' vacc'.
Proof.
  intros Hc Hd Hv. rewrite !merge_country_data_rows.
  rewrite (group_keys_Permutation _ _ (Permutation_map c_country Hc)).
  apply map_ext. intros k. unfold country_row_of.
  rewrite (max_skipna_Permutation _ _
             (group_values_Permutation c_country c_value _ _ k Hc)).
  rewrite (max_skipna_Permutation _ _
             (group_values_Permutation c_country c_value _ _ k Hd)).
  rewrite (max_skipna_Permutation _ _
             (group_values_Permutation v_country v_total _ _ k Hv)).
  reflexivity.
Qed.

Lemma country_data_ignores_row_order_witness :
  merge_country_data (confirmed_data Examples.ex_store)
    (deaths_data Examples.ex_store) (vaccination_data Examples.ex_store)
  = merge_country_data (rev (confirmed_data Examples.ex_store))
      (rev (deaths_data Examples.ex_store))
      (rev (vaccination_data Examples.ex_store)).
Proof.
  apply country_data_ignores_row_order; apply Permutation_rev.
Defined.

(** ** The metric dropdown *)

(** X12: no metric the dropdown offers makes the callback raise.  For
    each of its option values, and for whatever country selection, empty
    or not, known or not, the callback returns two figures; with a country
    that is not empty the first one is the map of that metric. *)
Theorem offered_metrics_never_raise
    (st : store) (selected_country : option string) (data : string) :
  In data (map snd (options data_dropdown)) ->
  exists m t,
    update_visualizations st selected_country (Some data) = Ok (m, t)
    /\ (falsy selected_country = false -> choropleth_map st data = Ok m).
Proof.
  intros Hin.
  assert (recognised data) as Hd.
  { simpl in Hin. unfold recognised.
    destruct Hin as [H|[H|[H|[]]]]; symmetry in H; auto. }
  pose proof (recognised_nonempty _ Hd) as Hne.
  destruct selected_country as [country|];
    [|exists EmptyFigure, EmptyFigure; split; [reflexivity | discriminate]].
  destruct (String.eqb_spec country "") as [->|Hc].
  - exists EmptyFigure, EmptyFigure. split; [reflexivity | discriminate].
  - rewrite update_visualizations_nonempty by assumption.
    destruct (choropleth_map_recognised st data Hd) as [m Hm].
    rewrite Hm. cbn [bind].
    destruct (frame_empty _); [eauto|].
    destruct (px_line_recognised st country data
                (data ++ " Over Time in " ++ country)%string Hd) as [f Hf].
    rewrite Hf. cbn [bind]. eauto.
Qed.

Lemma offered_metrics_never_raise_witness :
  exists m t,
    update_visualizations Examples.ex_store (Some "Atlantis")
      (Some "total_vaccinations") = Ok (m, t)
    /\ (falsy (Some "Atlantis") = false ->
        choropleth_map Examples.ex_store "total_vaccinations" = Ok m).
Proof.
  apply offered_metrics_never_raise.
  simpl. right. right. left. reflexivity.
Defined.
